(** * pps_gen_gpio: the GPIO pulse-per-second generator

    A shallow embedding of [drivers/pps/generators/pps_gen_gpio.c] and the
    properties of its timer callback, calibration loop and life cycle.

    Integer model (LP64, as on the 64-bit Raspberry Pi kernel): [long] and
    [s64] are 64-bit two's-complement integers, kept as [Z] with the
    wrap-around written out ([Long.wrap]); the kernel is built with
    [-fno-strict-overflow], so signed arithmetic wraps.  [unsigned int]
    operands are promoted to [long] without change of value.  Division is
    C's, truncating towards zero ([Z.quot]).

    The outside world is a [machine]: the readings the wall clock will
    deliver (in order), the trace of kernel calls made so far, and the
    driver's own variables.  A computation that asks the clock for a
    reading it does not have yields [None]; nothing else fails. *)

From Stdlib Require Import ZArith List Lia Bool.
Import ListNotations.
Local Open Scope Z_scope.

(** ** 64-bit signed arithmetic *)

Module Long.

Definition half : Z := 2 ^ 63.
Definition modulus : Z := 2 ^ 64.

(** The value a 64-bit signed variable holds after being assigned [x]. *)
Definition wrap (x : Z) : Z := (x + half) mod modulus - half.

(** [x] is representable: no wrap-around happens. *)
Definition fits (x : Z) : Prop := - half <= x < half.

Definition add (a b : Z) : Z := wrap (a + b).
Definition sub (a b : Z) : Z := wrap (a - b).
Definition mul (a b : Z) : Z := wrap (a * b).
Definition div (a b : Z) : Z := wrap (Z.quot a b).

End Long.

(** ** Constants and types of the driver *)

(** [NSEC_PER_USEC] and [NSEC_PER_SEC] come from the kernel's time headers
    (1000L and 1000000000L). *)
Definition NSEC_PER_USEC : Z := 1000.
Definition NSEC_PER_SEC : Z := 1000000000.

Definition GPIO_PULSE_WIDTH_DEF_NS : Z := 30 * NSEC_PER_USEC.
Definition GPIO_PULSE_WIDTH_MAX_NS : Z := 100 * NSEC_PER_USEC.
Definition SAFETY_INTERVAL_NS : Z := 10 * NSEC_PER_USEC.
Definition PPS_GEN_CALIBRATE_LOOPS : nat := 100.

(** errno values of the kernel ([EINVAL], [ENOMEM]). *)
Definition EINVAL : Z := 22.
Definition ENOMEM : Z := 12.

Inductive pps_gen_gpio_level : Type :=
| PPS_GPIO_LOW
| PPS_GPIO_HIGH.

Inductive hrtimer_restart : Type :=
| HRTIMER_NORESTART
| HRTIMER_RESTART.

(** [struct timespec64]: [tv_sec] is an [s64], [tv_nsec] a [long]. *)
Record timespec : Type := mk_timespec { tv_sec : Z; tv_nsec : Z }.

(** Modelled from the spec: [ktime_t] and [ktime_set] are declared in the
    kernel's ktime.h, which is not part of the driver's file.  The spec calls
    a deadline "an absolute time point (seconds, nanoseconds)", so a
    [ktime_t] is kept as the two arguments [ktime_set] was called with (the
    second one as the [long] the driver computed). *)
Record ktime_t : Type := ktime_set { kt_sec : Z; kt_nsec : Z }.

(** Modelled from the spec: [KTIME_TO_TIMESPEC] (the kernel's
    [ktime_to_timespec64]) is not part of the driver's file.  It gives the
    time point as seconds and a nanosecond offset within the second. *)
Definition KTIME_TO_TIMESPEC (kt : ktime_t) : timespec :=
  mk_timespec (kt_sec kt + kt_nsec kt / NSEC_PER_SEC) (kt_nsec kt mod NSEC_PER_SEC).

(** Modelled from the spec: [TIMESPEC_SUB] (the kernel's [timespec64_sub]) is
    not part of the driver's file.  It gives the difference of two time
    points, normalised to a nanosecond offset within the second. *)
Definition TIMESPEC_SUB (lhs rhs : timespec) : timespec :=
  let sec := tv_sec lhs - tv_sec rhs in
  let nsec := tv_nsec lhs - tv_nsec rhs in
  mk_timespec (sec + nsec / NSEC_PER_SEC) (nsec mod NSEC_PER_SEC).

(** Modelled from the spec: [TIMESPEC_TO_NS] (the kernel's
    [timespec64_to_ns]) is not part of the driver's file.  It gives a time
    span in nanoseconds, as an [s64]. *)
Definition TIMESPEC_TO_NS (ts : timespec) : Z :=
  Long.wrap (tv_sec ts * NSEC_PER_SEC + tv_nsec ts).

(** The span [a - b] in nanoseconds, as a mathematical integer. *)
Definition elapsed_ns (a b : timespec) : Z :=
  (tv_sec a - tv_sec b) * NSEC_PER_SEC + (tv_nsec a - tv_nsec b).

(** Result of [devm_gpiod_get]: a descriptor, or an [ERR_PTR] carrying a
    negative errno. *)
Inductive gpiod_result : Type :=
| gpiod_ok
| gpiod_err (ret : Z).

(** What the platform answers during [probe]. *)
Record platform_device : Type := mk_platform_device {
  devm_kzalloc_ok : bool;
  of_gpio_named_count : Z;
  devm_gpiod_get_result : gpiod_result;
  gpiod_direction_output_ret : Z }.

(** Calls the driver makes into the kernel, as they appear in a trace. *)
Inductive event : Type :=
| local_irq_save
| local_irq_restore
| getnstimeofday (ts : timespec)
| gpiod_set_value (value : pps_gen_gpio_level)
| pr_err_late (req real : timespec)
| pr_info_gpio_event
| pr_info_gpio_set_takes (ns : Z)
| pr_info_probe
| devm_kzalloc
| dev_err_dt
| devm_gpiod_get_out_low
| dev_err_gpio_get (ret : Z)
| platform_set_drvdata
| gpiod_direction_output (value : pps_gen_gpio_level)
| dev_err_gpio_dir
| hrtimer_init
| hrtimer_start (expires : ktime_t)
| devm_gpiod_put
| devm_kfree
| hrtimer_cancel
| pr_err_width
| platform_driver_register
| pr_info_avg_latency (ns : Z)
| platform_driver_unregister.

(** [struct pps_gen_gpio_devdata]; of the timer only its expiry is kept. *)
Record pps_gen_gpio_devdata : Type := mk_devdata {
  timer : ktime_t;
  gpio_instr_time : Z }.

Record machine : Type := mk_machine {
  clock : list timespec;          (* readings the wall clock will deliver *)
  trace : list event;             (* kernel calls made so far, oldest first *)
  gpio_pulse_width_ns : Z;        (* module parameter, unsigned int *)
  hrtimer_avg_latency : Z;        (* static long *)
  devdata : pps_gen_gpio_devdata }.

Definition set_clock (c : list timespec) (m : machine) : machine :=
  mk_machine c (trace m) (gpio_pulse_width_ns m) (hrtimer_avg_latency m) (devdata m).

Definition log (e : event) (m : machine) : machine :=
  mk_machine (clock m) (trace m ++ [e]) (gpio_pulse_width_ns m)
    (hrtimer_avg_latency m) (devdata m).

Definition set_hrtimer_avg_latency (v : Z) (m : machine) : machine :=
  mk_machine (clock m) (trace m) (gpio_pulse_width_ns m) v (devdata m).

Definition set_devdata (d : pps_gen_gpio_devdata) (m : machine) : machine :=
  mk_machine (clock m) (trace m) (gpio_pulse_width_ns m) (hrtimer_avg_latency m) d.

Definition set_gpio_instr_time (v : Z) (m : machine) : machine :=
  set_devdata (mk_devdata (timer (devdata m)) v) m.

Definition set_timer (kt : ktime_t) (m : machine) : machine :=
  set_devdata (mk_devdata kt (gpio_instr_time (devdata m))) m.

(** ** A state monad over the machine, failing when the clock is exhausted *)

Definition M (A : Type) : Type := machine -> option (A * machine).

Definition ret {A : Type} (a : A) : M A := fun m => Some (a, m).

Definition bind {A B : Type} (c : M A) (k : A -> M B) : M B :=
  fun m => match c m with
           | Some (a, m') => k a m'
           | None => None
           end.

Notation "x <- c ;; k" := (bind c (fun x => k))
  (at level 61, c at next level, right associativity).
Notation "c ;;; k" := (bind c (fun _ => k))
  (at level 61, right associativity).

Definition read {A : Type} (f : machine -> A) : M A := fun m => Some (f m, m).
Definition update (f : machine -> machine) : M unit := fun m => Some (tt, f m).
Definition emit (e : event) : M unit := update (log e).

(** [GETNSTIMEOFDAY(&ts)]: the next reading of the wall clock. *)
Definition GETNSTIMEOFDAY : M timespec :=
  fun m => match clock m with
           | [] => None
           | ts :: later => Some (ts, log (getnstimeofday ts) (set_clock later m))
           end.

Definition hrtimer_get_softexpires : M ktime_t := read (fun m => timer (devdata m)).
Definition hrtimer_set_expires (kt : ktime_t) : M unit := update (set_timer kt).

(** ** The timer callback *)

(** [time_gpio_deassert_ns] and [time_gpio_assert_ns], the two constants the
    callback computes on entry. *)
Definition time_gpio_deassert_ns (m : machine) : Z :=
  Long.sub NSEC_PER_SEC (gpio_instr_time (devdata m)).

Definition time_gpio_assert_ns (m : machine) : Z :=
  Long.sub (time_gpio_deassert_ns m) (gpio_pulse_width_ns m).

(** The condition of both busy loops:
    [ts_expire_req.tv_sec == ts1.tv_sec && ts1.tv_nsec < threshold]. *)
Definition keep_polling (ts_expire_req : timespec) (threshold : Z) (ts1 : timespec) : bool :=
  (tv_sec ts_expire_req =? tv_sec ts1) && (tv_nsec ts1 <? threshold).

(** [do GETNSTIMEOFDAY(&ts1); while (cond);] with a bound on the number of
    iterations. *)
Fixpoint do_getnstimeofday_while (fuel : nat) (cond : timespec -> bool) : M timespec :=
  match fuel with
  | O => fun _ => None
  | S fuel' =>
      ts1 <- GETNSTIMEOFDAY ;;
      if cond ts1 then do_getnstimeofday_while fuel' cond else ret ts1
  end.

(** The busy loop: every iteration takes one reading, so the number of
    readings left bounds the iterations. *)
Definition busy_loop (cond : timespec -> bool) : M timespec :=
  fun m => do_getnstimeofday_while (length (clock m)) cond m.

(** The update of the average latency at the end of the callback
    (lines 161-165). *)
Definition update_hrtimer_avg_latency (avg hrtimer_latency : Z) : Z :=
  if hrtimer_latency >? avg
  then hrtimer_latency
  else Long.div (Long.add (Long.mul 3 avg) hrtimer_latency) 4.

(** [hrtimer_callback] (lines 79-175).  The clock-regression branch returns
    at once; the late branch and the on-time branch both continue at
    [done:]. *)
Definition hrtimer_callback : M hrtimer_restart :=
  time_gpio_deassert <- read time_gpio_deassert_ns ;;
  time_gpio_assert <- read time_gpio_assert_ns ;;
  emit local_irq_save ;;;
  ts_expire_real <- GETNSTIMEOFDAY ;;
  kt <- hrtimer_get_softexpires ;;
  let ts_expire_req := KTIME_TO_TIMESPEC kt in
  if tv_sec ts_expire_real >? tv_sec ts_expire_req then
    avg <- read hrtimer_avg_latency ;;
    hrtimer_set_expires
      (ktime_set (Long.add (tv_sec ts_expire_real) 1)
                 (Long.sub (Long.sub time_gpio_assert avg) SAFETY_INTERVAL_NS)) ;;;
    ret HRTIMER_RESTART
  else
    (if negb (tv_sec ts_expire_req =? tv_sec ts_expire_real)
        || (tv_nsec ts_expire_real >? time_gpio_assert)
     then
       emit local_irq_restore ;;;
       emit (pr_err_late ts_expire_req ts_expire_real)
     else
       emit pr_info_gpio_event ;;;
       _ <- busy_loop (keep_polling ts_expire_req time_gpio_assert) ;;
       emit (gpiod_set_value PPS_GPIO_HIGH) ;;;
       ts1 <- busy_loop (keep_polling ts_expire_req time_gpio_deassert) ;;
       emit (gpiod_set_value PPS_GPIO_LOW) ;;;
       ts2 <- GETNSTIMEOFDAY ;;
       emit local_irq_restore ;;;
       let ts_gpio_instr_time := TIMESPEC_SUB ts2 ts1 in
       instr <- read (fun m => gpio_instr_time (devdata m)) ;;
       update (set_gpio_instr_time
                 (Long.div (Long.add instr (TIMESPEC_TO_NS ts_gpio_instr_time)) 2))) ;;;
    (* done: *)
    let ts_hrtimer_latency := TIMESPEC_SUB ts_expire_real ts_expire_req in
    let hrtimer_latency := TIMESPEC_TO_NS ts_hrtimer_latency in
    avg <- read hrtimer_avg_latency ;;
    update (set_hrtimer_avg_latency (update_hrtimer_avg_latency avg hrtimer_latency)) ;;;
    avg' <- read hrtimer_avg_latency ;;
    hrtimer_set_expires
      (ktime_set (Long.add (tv_sec ts_expire_req) 1)
                 (Long.sub (Long.sub time_gpio_assert avg') SAFETY_INTERVAL_NS)) ;;;
    ret HRTIMER_RESTART.

(** ** Calibration *)

(** The body of the calibration [for] loop, run [n] more times. *)
Fixpoint pps_gen_calibrate_loop (n : nat) (time_acc : Z) : M Z :=
  match n with
  | O => ret time_acc
  | S n' =>
      emit local_irq_save ;;;
      ts1 <- GETNSTIMEOFDAY ;;
      emit (gpiod_set_value PPS_GPIO_LOW) ;;;
      ts2 <- GETNSTIMEOFDAY ;;
      emit local_irq_restore ;;;
      let ts_delta := TIMESPEC_SUB ts2 ts1 in
      pps_gen_calibrate_loop n' (Long.add time_acc (TIMESPEC_TO_NS ts_delta))
  end.

(** [pps_gen_calibrate] (lines 179-200). *)
Definition pps_gen_calibrate : M unit :=
  time_acc <- pps_gen_calibrate_loop PPS_GEN_CALIBRATE_LOOPS 0 ;;
  update (set_gpio_instr_time
            (Long.div time_acc (Z.of_nat PPS_GEN_CALIBRATE_LOOPS))) ;;;
  instr <- read (fun m => gpio_instr_time (devdata m)) ;;
  emit (pr_info_gpio_set_takes instr).

(** ** Life cycle *)

(** [pps_gen_first_timer_event] (lines 202-213). *)
Definition pps_gen_first_timer_event : M ktime_t :=
  ts <- GETNSTIMEOFDAY ;;
  width <- read gpio_pulse_width_ns ;;
  instr <- read (fun m => gpio_instr_time (devdata m)) ;;
  ret (ktime_set (Long.add (tv_sec ts) 1)
         (Long.sub (Long.sub (Long.sub NSEC_PER_SEC width) instr)
                   (Long.mul 3 SAFETY_INTERVAL_NS))).

(** [hrtimer_start(&devdata->timer, kt, HRTIMER_MODE_ABS)]. *)
Definition hrtimer_start_abs (kt : ktime_t) : M unit :=
  update (set_timer kt) ;;; emit (hrtimer_start kt).

(** [pps_gen_gpio_probe] (lines 215-269); the error labels release what was
    acquired before the failing step. *)
Definition pps_gen_gpio_probe (pdev : platform_device) : M Z :=
  emit pr_info_probe ;;;
  emit devm_kzalloc ;;;
  if negb (devm_kzalloc_ok pdev) then
    ret (- ENOMEM)
  else
    update (set_devdata (mk_devdata (ktime_set 0 0) 0)) ;;;
    if negb (of_gpio_named_count pdev =? 1) then
      emit dev_err_dt ;;;
      emit devm_kfree ;;;
      ret (- EINVAL)
    else
      emit devm_gpiod_get_out_low ;;;
      match devm_gpiod_get_result pdev with
      | gpiod_err err =>
          emit (dev_err_gpio_get err) ;;;
          emit devm_kfree ;;;
          ret err
      | gpiod_ok =>
          emit platform_set_drvdata ;;;
          emit (gpiod_direction_output PPS_GPIO_HIGH) ;;;
          if gpiod_direction_output_ret pdev <? 0 then
            emit dev_err_gpio_dir ;;;
            emit devm_gpiod_put ;;;
            emit devm_kfree ;;;
            ret (gpiod_direction_output_ret pdev)
          else
            pps_gen_calibrate ;;;
            emit hrtimer_init ;;;
            kt <- pps_gen_first_timer_event ;;
            hrtimer_start_abs kt ;;;
            ret 0
      end.

(** [pps_gen_gpio_remove] (lines 271-279). *)
Definition pps_gen_gpio_remove : M Z :=
  emit devm_gpiod_put ;;;
  emit hrtimer_cancel ;;;
  ret 0.

(** [pps_gen_gpio_init] (lines 298-307); the result of
    [platform_driver_register] is not looked at. *)
Definition pps_gen_gpio_init : M Z :=
  width <- read gpio_pulse_width_ns ;;
  if width >? GPIO_PULSE_WIDTH_MAX_NS then
    emit pr_err_width ;;;
    ret (- EINVAL)
  else
    emit platform_driver_register ;;;
    ret 0.

Definition pps_gen_gpio_exit : M unit :=
  avg <- read hrtimer_avg_latency ;;
  emit (pr_info_avg_latency avg) ;;;
  emit platform_driver_unregister.

(** ** Reading traces *)

(** The levels written to the output line by [gpiod_set_value], in order. *)
Fixpoint gpio_writes (t : list event) : list pps_gen_gpio_level :=
  match t with
  | [] => []
  | gpiod_set_value v :: t' => v :: gpio_writes t'
  | _ :: t' => gpio_writes t'
  end.

(** The missed-cycle reports of a trace. *)
Fixpoint late_reports (t : list event) : list (timespec * timespec) :=
  match t with
  | [] => []
  | pr_err_late req real :: t' => (req, real) :: late_reports t'
  | _ :: t' => late_reports t'
  end.

Definition is_devm_gpiod_put (e : event) : bool :=
  match e with devm_gpiod_put => true | _ => false end.

Definition is_hrtimer_cancel (e : event) : bool :=
  match e with hrtimer_cancel => true | _ => false end.

Definition count (p : event -> bool) (t : list event) : nat :=
  length (filter p t).

(** The level the output line was last driven to: acquiring the line with
    [GPIOD_OUT_LOW] drives it low, [gpiod_direction_output] and
    [gpiod_set_value] drive it to their argument. *)
Fixpoint line_level (current : option pps_gen_gpio_level) (t : list event)
  : option pps_gen_gpio_level :=
  match t with
  | [] => current
  | devm_gpiod_get_out_low :: t' => line_level (Some PPS_GPIO_LOW) t'
  | gpiod_direction_output v :: t' => line_level (Some v) t'
  | gpiod_set_value v :: t' => line_level (Some v) t'
  | _ :: t' => line_level current t'
  end.

(** Scans a trace for a release of the output line made while the timer is
    armed ([hrtimer_start] arms it, [hrtimer_cancel] disarms it). *)
Fixpoint released_while_armed (armed : bool) (t : list event) : bool :=
  match t with
  | [] => false
  | hrtimer_start _ :: t' => released_while_armed true t'
  | hrtimer_cancel :: t' => released_while_armed false t'
  | devm_gpiod_put :: t' => armed || released_while_armed armed t'
  | _ :: t' => released_while_armed armed t'
  end.

(** A calibration run seen from the clock: the pairs of readings taken
    around each write. *)
Definition readings_of (samples : list (timespec * timespec)) : list timespec :=
  flat_map (fun s => [fst s; snd s]) samples.

Definition durations_of (samples : list (timespec * timespec)) : list Z :=
  map (fun s => elapsed_ns (snd s) (fst s)) samples.

Definition calibration_events (samples : list (timespec * timespec)) : list event :=
  flat_map (fun s => [local_irq_save; getnstimeofday (fst s);
                      gpiod_set_value PPS_GPIO_LOW;
                      getnstimeofday (snd s); local_irq_restore]) samples.

Definition sum (l : list Z) : Z := fold_right Z.add 0 l.

(** A busy loop over [readings] polls [polled], stops at [last] and leaves
    [later] unread. *)
Definition polls (cond : timespec -> bool) (readings polled : list timespec)
  (last : timespec) (later : list timespec) : Prop :=
  readings = polled ++ last :: later /\
  forallb cond polled = true /\
  cond last = false.

(** ** Vocabulary of the statements *)

(** The machine after a busy loop has taken the readings [taken] and left
    [later] unread. *)
Definition after_readings (m : machine) (taken later : list timespec) : machine :=
  mk_machine later (trace m ++ map getnstimeofday taken)
    (gpio_pulse_width_ns m) (hrtimer_avg_latency m) (devdata m).

(** The wake-up time the timer was set for, as the callback reads it. *)
Definition requested_wake (m : machine) : timespec :=
  KTIME_TO_TIMESPEC (timer (devdata m)).

(** The clock leaves the requested second: from some reading on, two
    consecutive readings are outside it, and one more reading follows. *)
Definition leaves_second (req : timespec) (readings : list timespec) : Prop :=
  exists before a b c rest,
    readings = before ++ a :: b :: c :: rest /\
    tv_sec a <> tv_sec req /\
    tv_sec b <> tv_sec req.

(** Runs [n] cycles of the callback one after the other and records, for
    each, the latency sample it saw (actual minus requested wake-up) and the
    average latency it stored. *)
Fixpoint tracked_cycles (n : nat) (m : machine) : option (list (Z * Z) * machine) :=
  match n with
  | O => Some ([], m)
  | S n' =>
      match clock m with
      | [] => None
      | real :: _ =>
          let sample := elapsed_ns real (requested_wake m) in
          match hrtimer_callback m with
          | None => None
          | Some (_, m') =>
              match tracked_cycles n' m' with
              | None => None
              | Some (l, m'') => Some ((sample, hrtimer_avg_latency m') :: l, m'')
              end
          end
      end
  end.

(** ** Example machines *)

(** The driver's defaults (30us pulse, 10us initial average latency), a
    write taking 1000ns, and a timer set for 10.999950000. *)
Definition example_machine (readings : list timespec) : machine :=
  mk_machine readings [] GPIO_PULSE_WIDTH_DEF_NS SAFETY_INTERVAL_NS
    (mk_devdata (ktime_set 10 999950000) 1000).

Definition on_time_readings : list timespec :=
  [ mk_timespec 10 999960000;
    mk_timespec 10 999968000; mk_timespec 10 999969500;
    mk_timespec 10 999990000; mk_timespec 10 999999200;
    mk_timespec 10 999999900 ].

(** Three cycles woken 5000ns, 20000ns and 8000ns after their deadlines: an
    on-time cycle, a late one and another on-time one, each write taking
    1000ns. *)
Definition tracker_readings : list timespec :=
  [ mk_timespec 10 999955000; mk_timespec 10 999969100;
    mk_timespec 10 999999000; mk_timespec 11 0;
    mk_timespec 11 999970250;
    mk_timespec 12 999947000; mk_timespec 12 999969000;
    mk_timespec 12 999999000; mk_timespec 13 0 ].

(** A hundred calibration rounds a microsecond apart, the [i]-th write
    taking [800 + i] nanoseconds. *)
Definition calibration_samples : list (timespec * timespec) :=
  map (fun i => (mk_timespec 5 (1000 * Z.of_nat i),
                 mk_timespec 5 (1000 * Z.of_nat i + 800 + Z.of_nat i)))
      (seq 0 100).

(** A platform on which every step of [probe] succeeds. *)
Definition working_platform : platform_device :=
  mk_platform_device true 1 gpiod_ok 0.

(** The calls [probe] makes before calibration when every step succeeds. *)
Definition probe_setup_events : list event :=
  [pr_info_probe; devm_kzalloc; devm_gpiod_get_out_low; platform_set_drvdata;
   gpiod_direction_output PPS_GPIO_HIGH].

(** ** Vocabulary of the further properties *)

Definition is_hrtimer_start (e : event) : bool :=
  match e with hrtimer_start _ => true | _ => false end.

Definition is_devm_kfree (e : event) : bool :=
  match e with devm_kfree => true | _ => false end.

Definition is_getnstimeofday (e : event) : bool :=
  match e with getnstimeofday _ => true | _ => false end.

(** Whether a trace ends between a [local_irq_save] and the
    [local_irq_restore] that closes it. *)
Fixpoint irq_section (inside : bool) (t : list event) : bool :=
  match t with
  | [] => inside
  | local_irq_save :: t' => irq_section true t'
  | local_irq_restore :: t' => irq_section false t'
  | _ :: t' => irq_section inside t'
  end.

(** The writes to the output line made outside such a section. *)
Fixpoint writes_outside_irq_section (inside : bool) (t : list event)
  : list pps_gen_gpio_level :=
  match t with
  | [] => []
  | local_irq_save :: t' => writes_outside_irq_section true t'
  | local_irq_restore :: t' => writes_outside_irq_section false t'
  | gpiod_set_value v :: t' =>
      if inside then writes_outside_irq_section inside t'
      else v :: writes_outside_irq_section inside t'
  | _ :: t' => writes_outside_irq_section inside t'
  end.

(** A reading as nanoseconds since the epoch. *)
Definition ns_of (ts : timespec) : Z := tv_sec ts * NSEC_PER_SEC + tv_nsec ts.

(** A clock that never runs backwards. *)
Fixpoint nondecreasing (l : list timespec) : Prop :=
  match l with
  | a :: (b :: _) as l' => ns_of a <= ns_of b /\ nondecreasing l'
  | _ => True
  end.

(** The machine a clock-regression cycle leaves. *)
Definition regression_result (m : machine) (real : timespec) (later : list timespec)
  : machine :=
  mk_machine later (trace m ++ [local_irq_save; getnstimeofday real])
    (gpio_pulse_width_ns m) (hrtimer_avg_latency m)
    (mk_devdata
       (ktime_set (Long.add (tv_sec real) 1)
          (Long.sub (Long.sub (time_gpio_assert_ns m) (hrtimer_avg_latency m))
                    SAFETY_INTERVAL_NS))
       (gpio_instr_time (devdata m))).

(** The machine a cycle leaves that went through [done:], having made the
    calls [events], left [rest] unread and stored [instr]. *)
Definition done_result (m : machine) (real : timespec) (rest : list timespec)
    (events : list event) (instr : Z) : machine :=
  let req := requested_wake m in
  let avg' := update_hrtimer_avg_latency (hrtimer_avg_latency m)
                (TIMESPEC_TO_NS (TIMESPEC_SUB real req)) in
  mk_machine rest (trace m ++ events) (gpio_pulse_width_ns m) avg'
    (mk_devdata
       (ktime_set (Long.add (tv_sec req) 1)
          (Long.sub (Long.sub (time_gpio_assert_ns m) avg') SAFETY_INTERVAL_NS))
       instr).

Definition late_events (req real : timespec) : list event :=
  [local_irq_save; getnstimeofday real; local_irq_restore; pr_err_late req real].

Definition on_time_events (real : timespec) (polled1 : list timespec)
    (ts_high : timespec) (polled2 : list timespec) (ts1 ts2 : timespec) : list event :=
  [local_irq_save; getnstimeofday real; pr_info_gpio_event]
  ++ map getnstimeofday (polled1 ++ [ts_high])
  ++ [gpiod_set_value PPS_GPIO_HIGH]
  ++ map getnstimeofday (polled2 ++ [ts1])
  ++ [gpiod_set_value PPS_GPIO_LOW; getnstimeofday ts2; local_irq_restore].

(** The three ways a cycle that starts with the reading [real] can end. *)
Definition cycle_outcome (m : machine) (real : timespec) (later : list timespec)
    (m' : machine) : Prop :=
  let req := requested_wake m in
  (tv_sec req < tv_sec real /\ m' = regression_result m real later)
  \/ (tv_sec real <= tv_sec req /\
      (tv_sec req <> tv_sec real \/ time_gpio_assert_ns m < tv_nsec real) /\
      m' = done_result m real later (late_events req real) (gpio_instr_time (devdata m)))
  \/ (tv_sec real = tv_sec req /\ tv_nsec real <= time_gpio_assert_ns m /\
      exists polled1 ts_high later1 polled2 ts1 ts2 rest,
        polls (keep_polling req (time_gpio_assert_ns m)) later polled1 ts_high later1 /\
        polls (keep_polling req (time_gpio_deassert_ns m)) later1 polled2 ts1
          (ts2 :: rest) /\
        m' = done_result m real rest
               (on_time_events real polled1 ts_high polled2 ts1 ts2)
               (Long.div (Long.add (gpio_instr_time (devdata m))
                                   (TIMESPEC_TO_NS (TIMESPEC_SUB ts2 ts1))) 2)).

(** A step of [probe] fails. *)
Definition probe_step_fails (pdev : platform_device) : Prop :=
  devm_kzalloc_ok pdev = false
  \/ of_gpio_named_count pdev <> 1
  \/ (exists err, devm_gpiod_get_result pdev = gpiod_err err)
  \/ gpiod_direction_output_ret pdev < 0.

(** The value [probe] returns when a step fails: the error of the first
    failing step. *)
Definition probe_error (pdev : platform_device) : Z :=
  if negb (devm_kzalloc_ok pdev) then - ENOMEM
  else if negb (of_gpio_named_count pdev =? 1) then - EINVAL
  else match devm_gpiod_get_result pdev with
       | gpiod_err err => err
       | gpiod_ok => gpiod_direction_output_ret pdev
       end.

(** The average after feeding the same sample [n] times. *)
Definition feed_constant (n : nat) (sample avg : Z) : Z :=
  Nat.iter n (fun a => update_hrtimer_avg_latency a sample) avg.

(** * Properties *)

(** ** Facts about 64-bit arithmetic *)

Module LongFacts.
Import Long.

Lemma wrap_fits x : fits x -> wrap x = x.
Proof.
  unfold fits, wrap, half, modulus; intros H.
  rewrite Z.mod_small; lia.
Qed.

Lemma fits_wrap x : fits (wrap x).
Proof.
  unfold fits, wrap, half, modulus.
  pose proof (Z.mod_pos_bound (x + 2 ^ 63) (2 ^ 64) ltac:(lia)); lia.
Qed.

Lemma wrap_add_l a b : wrap (wrap a + b) = wrap (a + b).
Proof.
  unfold wrap. f_equal.
  replace ((a + half) mod modulus - half + b + half)
    with ((a + half) mod modulus + b) by lia.
  rewrite Zplus_mod_idemp_l. f_equal; lia.
Qed.

Lemma wrap_add_r a b : wrap (a + wrap b) = wrap (a + b).
Proof. rewrite Z.add_comm, wrap_add_l. f_equal; lia. Qed.

Lemma wrap_sub_l a b : wrap (wrap a - b) = wrap (a - b).
Proof.
  replace (wrap a - b) with (wrap a + - b) by lia.
  rewrite wrap_add_l. f_equal; lia.
Qed.

Lemma wrap_sub_chain a b c d :
  wrap (wrap (wrap (a - b) - c) - d) = wrap (a - b - c - d).
Proof.
  rewrite wrap_sub_l.
  replace (wrap (a - b) - c - d) with (wrap (a - b) - (c + d)) by lia.
  rewrite wrap_sub_l. f_equal. lia.
Qed.

(** Truncating division by a positive constant stays in range. *)
Lemma fits_quot a d : 0 < d -> fits a -> fits (Z.quot a d).
Proof.
  unfold fits; intros Hd [Hlo Hhi].
  destruct (Z_le_gt_dec 0 a) as [Hp | Hn].
  - pose proof (Z.quot_pos a d Hp Hd).
    pose proof (Z.quot_le_upper_bound a d a Hd ltac:(nia)). unfold half in *; lia.
  - pose proof (Z.quot_opp_l a d ltac:(lia)) as Ho.
    pose proof (Z.quot_pos (- a) d ltac:(lia) Hd).
    pose proof (Z.quot_le_upper_bound (- a) d (- a) Hd ltac:(nia)).
    unfold half in *; lia.
Qed.

Lemma div_fits a d : 0 < d -> fits a -> div a d = Z.quot a d.
Proof. intros; unfold div; apply wrap_fits, fits_quot; assumption. Qed.

End LongFacts.
Import LongFacts.

Arguments Long.wrap : simpl never.
Arguments Long.add : simpl never.
Arguments Long.sub : simpl never.
Arguments Long.mul : simpl never.
Arguments Long.div : simpl never.

(** ** Time spans *)

Lemma TIMESPEC_TO_NS_SUB (a b : timespec) :
  TIMESPEC_TO_NS (TIMESPEC_SUB a b) = Long.wrap (elapsed_ns a b).
Proof.
  unfold TIMESPEC_TO_NS, TIMESPEC_SUB, elapsed_ns; simpl. f_equal.
  pose proof (Z.div_mod (tv_nsec a - tv_nsec b) NSEC_PER_SEC) as H.
  unfold NSEC_PER_SEC in *. lia.
Qed.

(** ** The busy loop *)

Lemma do_getnstimeofday_while_polls cond polled :
  forall last later m fuel,
    clock m = polled ++ last :: later ->
    forallb cond polled = true ->
    cond last = false ->
    (length polled < fuel)%nat ->
    do_getnstimeofday_while fuel cond m
    = Some (last, after_readings m (polled ++ [last]) later).
Proof.
  induction polled as [| p polled IH]; intros last later m fuel Hc Hp Hl Hf.
  - destruct fuel as [| fuel]; [simpl in Hf; lia |].
    destruct m as [c t w a d]; simpl in Hc; subst c.
    simpl. unfold bind, GETNSTIMEOFDAY; simpl. rewrite Hl. reflexivity.
  - destruct fuel as [| fuel]; [simpl in Hf; lia |].
    destruct m as [c t w a d]; simpl in Hc; subst c.
    simpl in Hp. apply andb_prop in Hp as [Hp1 Hp2].
    simpl. unfold bind, GETNSTIMEOFDAY; simpl. rewrite Hp1.
    rewrite (IH last later _ fuel); simpl; try reflexivity; try assumption.
    + unfold after_readings; simpl. rewrite <- app_assoc. reflexivity.
    + simpl in Hf. lia.
Qed.

Lemma busy_loop_polls cond m polled last later :
  polls cond (clock m) polled last later ->
  busy_loop cond m = Some (last, after_readings m (polled ++ [last]) later).
Proof.
  intros (Hc & Hp & Hl). unfold busy_loop.
  apply do_getnstimeofday_while_polls; try assumption.
  rewrite Hc, length_app; simpl. lia.
Qed.

(** Any run of readings that contains one on which the condition fails is
    polled up to the first such reading. *)
Lemma polls_first_exit cond :
  forall before a rest,
    cond a = false ->
    exists polled last later,
      polls cond (before ++ a :: rest) polled last later /\
      (length polled <= length before)%nat /\
      exists unread, before ++ [a] = polled ++ last :: unread /\
                     later = unread ++ rest.
Proof.
  induction before as [| b before IH]; intros a rest Ha.
  - exists [], a, rest. repeat split; simpl; auto.
    exists []. auto.
  - destruct (cond b) eqn:Hb.
    + destruct (IH a rest Ha) as (polled & last & later & (Hc & Hp & Hl) & Hlen & unread & Hu & Hlater).
      exists (b :: polled), last, later. repeat split; simpl.
      * rewrite Hc. reflexivity.
      * rewrite Hb, Hp. reflexivity.
      * assumption.
      * lia.
      * exists unread. rewrite Hu. auto.
    + exists [], b, (before ++ a :: rest). repeat split; simpl; auto.
      * lia.
      * exists (before ++ [a]). split; [reflexivity |].
        rewrite <- app_assoc. reflexivity.
Qed.

Lemma do_getnstimeofday_while_inv cond :
  forall fuel m ts m',
    do_getnstimeofday_while fuel cond m = Some (ts, m') ->
    exists polled later,
      polls cond (clock m) polled ts later /\
      m' = after_readings m (polled ++ [ts]) later.
Proof.
  induction fuel as [| fuel IH]; intros m ts m' H; [discriminate |].
  destruct m as [c t w a d]. simpl in H. unfold bind, GETNSTIMEOFDAY in H; simpl in H.
  destruct c as [| r c]; [discriminate |].
  destruct (cond r) eqn:Hr.
  - apply IH in H as (polled & later & (Hc & Hp & Hl) & Hm). simpl in Hc.
    exists (r :: polled), later. split.
    + repeat split; simpl; [rewrite Hc; reflexivity | rewrite Hr, Hp; reflexivity | assumption].
    + rewrite Hm. unfold after_readings; simpl. rewrite <- app_assoc. reflexivity.
  - unfold ret in H. inversion H; subst. exists [], c. split.
    + repeat split; simpl; auto.
    + reflexivity.
Qed.

Lemma busy_loop_inv cond m ts m' :
  busy_loop cond m = Some (ts, m') ->
  exists polled later,
    polls cond (clock m) polled ts later /\
    m' = after_readings m (polled ++ [ts]) later.
Proof. apply do_getnstimeofday_while_inv. Qed.

(** ** Runs of the callback *)

Lemma Zgtb_true a b : b < a -> (a >? b) = true.
Proof. intros; apply Z.gtb_lt; assumption. Qed.

Lemma Zgtb_false a b : a <= b -> (a >? b) = false.
Proof. intros; rewrite Z.gtb_ltb; apply Z.ltb_ge; assumption. Qed.

Lemma bind_some {A B : Type} (c : M A) (k : A -> M B) m a m' :
  c m = Some (a, m') -> bind c k m = k a m'.
Proof. unfold bind; intros ->; reflexivity. Qed.

Arguments busy_loop : simpl never.

Ltac run_callback :=
  unfold hrtimer_callback, bind, read, emit, update, GETNSTIMEOFDAY,
    hrtimer_get_softexpires, hrtimer_set_expires, ret; simpl.

(** Unfolds the setters innermost first, so that nested updates of the machine
    are not duplicated. *)
Ltac unfold_machine :=
  cbv [log set_timer set_devdata set_clock set_hrtimer_avg_latency
       set_gpio_instr_time after_readings clock trace gpio_pulse_width_ns
       hrtimer_avg_latency devdata timer gpio_instr_time].

Lemma callback_regression m real later :
  clock m = real :: later ->
  tv_sec (requested_wake m) < tv_sec real ->
  hrtimer_callback m
  = Some (HRTIMER_RESTART,
          mk_machine later (trace m ++ [local_irq_save; getnstimeofday real])
            (gpio_pulse_width_ns m) (hrtimer_avg_latency m)
            (mk_devdata
               (ktime_set (Long.add (tv_sec real) 1)
                  (Long.sub (Long.sub (time_gpio_assert_ns m) (hrtimer_avg_latency m))
                            SAFETY_INTERVAL_NS))
               (gpio_instr_time (devdata m)))).
Proof.
  intros Hc Hs. unfold requested_wake in *.
  destruct m as [c t w a [kt instr]]; simpl in *; subst c.
  run_callback.
  rewrite (Zgtb_true _ _ Hs). simpl.
  unfold_machine.
  rewrite <- app_assoc. reflexivity.
Qed.


Lemma callback_late m real later :
  clock m = real :: later ->
  tv_sec real <= tv_sec (requested_wake m) ->
  tv_sec (requested_wake m) <> tv_sec real
  \/ time_gpio_assert_ns m < tv_nsec real ->
  let req := requested_wake m in
  let avg' := update_hrtimer_avg_latency (hrtimer_avg_latency m)
                (TIMESPEC_TO_NS (TIMESPEC_SUB real req)) in
  hrtimer_callback m
  = Some (HRTIMER_RESTART,
          mk_machine later
            (trace m ++ [local_irq_save; getnstimeofday real;
                         local_irq_restore; pr_err_late req real])
            (gpio_pulse_width_ns m) avg'
            (mk_devdata
               (ktime_set (Long.add (tv_sec req) 1)
                  (Long.sub (Long.sub (time_gpio_assert_ns m) avg') SAFETY_INTERVAL_NS))
               (gpio_instr_time (devdata m)))).
Proof.
  intros Hc Hs Hlate req avg'. subst req avg'. unfold requested_wake in *.
  destruct m as [c t w a [kt instr]]; simpl in *; subst c.
  run_callback.
  rewrite (Zgtb_false _ _ Hs).
  match goal with
  | |- context [negb ?x || ?y] => replace (negb x || y) with true
  end.
  - unfold_machine.
    repeat rewrite <- app_assoc. reflexivity.
  - symmetry. apply orb_true_iff. destruct Hlate as [Hne | Hgt].
    + left. apply negb_true_iff, Z.eqb_neq. exact Hne.
    + right. apply Zgtb_true. exact Hgt.
Qed.

Lemma callback_on_time m real later polled1 ts_high later1 polled2 ts1 ts2 rest :
  let req := requested_wake m in
  clock m = real :: later ->
  tv_sec real = tv_sec req ->
  tv_nsec real <= time_gpio_assert_ns m ->
  polls (keep_polling req (time_gpio_assert_ns m)) later polled1 ts_high later1 ->
  polls (keep_polling req (time_gpio_deassert_ns m)) later1 polled2 ts1 (ts2 :: rest) ->
  let avg' := update_hrtimer_avg_latency (hrtimer_avg_latency m)
                (TIMESPEC_TO_NS (TIMESPEC_SUB real req)) in
  hrtimer_callback m
  = Some (HRTIMER_RESTART,
          mk_machine rest
            (trace m
             ++ [local_irq_save; getnstimeofday real; pr_info_gpio_event]
             ++ map getnstimeofday (polled1 ++ [ts_high])
             ++ [gpiod_set_value PPS_GPIO_HIGH]
             ++ map getnstimeofday (polled2 ++ [ts1])
             ++ [gpiod_set_value PPS_GPIO_LOW; getnstimeofday ts2; local_irq_restore])
            (gpio_pulse_width_ns m) avg'
            (mk_devdata
               (ktime_set (Long.add (tv_sec req) 1)
                  (Long.sub (Long.sub (time_gpio_assert_ns m) avg') SAFETY_INTERVAL_NS))
               (Long.div (Long.add (gpio_instr_time (devdata m))
                                   (TIMESPEC_TO_NS (TIMESPEC_SUB ts2 ts1))) 2))).
Proof.
  intros req Hc Hs Hn H1 H2 avg'. subst req avg'. unfold requested_wake in *.
  destruct m as [c t w a [kt instr]]; simpl in *; subst c.
  run_callback.
  rewrite Zgtb_false by (rewrite Hs; apply Z.le_refl).
  rewrite Hs, Z.eqb_refl. simpl.
  rewrite (Zgtb_false _ _ Hn).
  erewrite busy_loop_polls by (simpl; exact H1). simpl.
  erewrite busy_loop_polls by (simpl; exact H2). simpl.
  unfold_machine.
  repeat rewrite <- app_assoc. reflexivity.
Qed.

(** ** Reading the traces of a run *)

Lemma gpio_writes_app t1 t2 : gpio_writes (t1 ++ t2) = gpio_writes t1 ++ gpio_writes t2.
Proof.
  induction t1 as [| e t1 IH]; simpl; [reflexivity |].
  destruct e; simpl; rewrite IH; reflexivity.
Qed.

Lemma late_reports_app t1 t2 : late_reports (t1 ++ t2) = late_reports t1 ++ late_reports t2.
Proof.
  induction t1 as [| e t1 IH]; simpl; [reflexivity |].
  destruct e; simpl; rewrite IH; reflexivity.
Qed.

Lemma gpio_writes_readings l : gpio_writes (map getnstimeofday l) = [].
Proof. induction l; simpl; auto. Qed.

Lemma late_reports_readings l : late_reports (map getnstimeofday l) = [].
Proof. induction l; simpl; auto. Qed.

(** ** The thresholds, without wrap-around *)

Lemma time_gpio_deassert_ns_fits m :
  Long.fits (NSEC_PER_SEC - gpio_instr_time (devdata m)) ->
  time_gpio_deassert_ns m = NSEC_PER_SEC - gpio_instr_time (devdata m).
Proof. intros H. unfold time_gpio_deassert_ns, Long.sub. apply wrap_fits, H. Qed.

Lemma time_gpio_assert_ns_fits m :
  Long.fits (NSEC_PER_SEC - gpio_instr_time (devdata m) - gpio_pulse_width_ns m) ->
  time_gpio_assert_ns m
  = NSEC_PER_SEC - gpio_instr_time (devdata m) - gpio_pulse_width_ns m.
Proof.
  intros H. unfold time_gpio_assert_ns, time_gpio_deassert_ns, Long.sub.
  rewrite wrap_sub_l. apply wrap_fits, H.
Qed.

(** The nanosecond part of a rearmed deadline: the nested 64-bit
    subtractions agree with one subtraction chain, wrapped once. *)
Lemma rearm_nsec_wrap m avg :
  Long.sub (Long.sub (time_gpio_assert_ns m) avg) SAFETY_INTERVAL_NS
  = Long.wrap (NSEC_PER_SEC - gpio_instr_time (devdata m) - gpio_pulse_width_ns m
               - avg - SAFETY_INTERVAL_NS).
Proof.
  unfold time_gpio_assert_ns, time_gpio_deassert_ns, Long.sub.
  rewrite wrap_sub_chain.
  match goal with
  | |- Long.wrap (Long.wrap ?y - ?w - ?a - ?s) = _ =>
      replace (Long.wrap y - w - a - s) with (Long.wrap y - (w + a + s)) by lia
  end.
  rewrite wrap_sub_l. f_equal. lia.
Qed.

(** ** Clock-regression cycles *)

(** C6: on a clock-regression cycle (the actual wake-up second is after the
    requested one) the callback writes nothing to the output line, reports
    nothing, leaves [gpio_instr_time] and [hrtimer_avg_latency] as they
    were, and rearms the timer for the second after the actual one, at
    nanosecond offset
    [NSEC_PER_SEC - instr_time - pulse_width - avg_latency - SAFETY_INTERVAL_NS]. *)
Theorem regression_cycle_rearms_after_actual_second (m : machine) (real : timespec)
    (later : list timespec) :
  let instr := gpio_instr_time (devdata m) in
  let nsec := NSEC_PER_SEC - instr - gpio_pulse_width_ns m
              - hrtimer_avg_latency m - SAFETY_INTERVAL_NS in
  clock m = real :: later ->
  tv_sec real > tv_sec (requested_wake m) ->
  Long.fits (tv_sec real + 1) ->
  Long.fits nsec ->
  exists m',
    hrtimer_callback m = Some (HRTIMER_RESTART, m') /\
    trace m' = trace m ++ [local_irq_save; getnstimeofday real] /\
    gpio_writes (trace m') = gpio_writes (trace m) /\
    late_reports (trace m') = late_reports (trace m) /\
    gpio_instr_time (devdata m') = instr /\
    hrtimer_avg_latency m' = hrtimer_avg_latency m /\
    timer (devdata m') = ktime_set (tv_sec real + 1) nsec.
Proof.
  intros instr nsec Hc Hs Hsec Hnsec.
  eexists. split.
  - apply (callback_regression m real later Hc). lia.
  - simpl. repeat split.
    + rewrite gpio_writes_app. simpl. apply app_nil_r.
    + rewrite late_reports_app. simpl. apply app_nil_r.
    + rewrite rearm_nsec_wrap. unfold Long.add.
      rewrite (wrap_fits _ Hsec). fold instr. fold nsec.
      rewrite (wrap_fits _ Hnsec). reflexivity.
Qed.

(** Decides [Long.fits] and comparisons of concrete numbers. *)
Ltac fits_by_computation :=
  unfold Long.fits; vm_compute; split; solve [discriminate | reflexivity].

Lemma regression_cycle_witness :
  exists m',
    hrtimer_callback (example_machine [mk_timespec 11 5]) = Some (HRTIMER_RESTART, m') /\
    gpio_writes (trace m') = [] /\
    timer (devdata m') = ktime_set 12 999949000.
Proof.
  destruct (regression_cycle_rearms_after_actual_second
              (example_machine [mk_timespec 11 5]) (mk_timespec 11 5) [])
    as (m' & Hrun & _ & Hw & _ & _ & _ & Ht).
  - reflexivity.
  - vm_compute. reflexivity.
  - fits_by_computation.
  - fits_by_computation.
  - exists m'. split; [exact Hrun |]. split; [exact Hw | exact Ht].
Defined.

(** ** Late cycles *)



(** ** On-time cycles *)

(** C1 (amended): on an on-time cycle the callback makes exactly two writes
    to the output line: HIGH right after the first reading that is outside
    the requested second or at or past the assert threshold, then LOW right
    after the first later reading that is outside the requested second or at
    or past the deassert threshold.  It then reads the clock once more and
    sets [gpio_instr_time] to [(gpio_instr_time + measured) / 2], where
    [measured] is that last reading minus the reading that ended the second
    busy loop: the time the LOW write took. *)
Theorem on_time_cycle_pulses_and_remeasures (m : machine) (real : timespec)
    (later polled1 : list timespec) (ts_high : timespec)
    (later1 polled2 : list timespec) (ts1 ts2 : timespec) (rest : list timespec) :
  let req := requested_wake m in
  let instr := gpio_instr_time (devdata m) in
  let deassert_threshold := NSEC_PER_SEC - instr in
  let assert_threshold := NSEC_PER_SEC - instr - gpio_pulse_width_ns m in
  let measured := elapsed_ns ts2 ts1 in
  clock m = real :: later ->
  tv_sec real = tv_sec req ->
  tv_nsec real <= assert_threshold ->
  polls (keep_polling req assert_threshold) later polled1 ts_high later1 ->
  polls (keep_polling req deassert_threshold) later1 polled2 ts1 (ts2 :: rest) ->
  Long.fits deassert_threshold ->
  Long.fits assert_threshold ->
  Long.fits (instr + measured) ->
  exists m',
    hrtimer_callback m = Some (HRTIMER_RESTART, m') /\
    trace m' = trace m
               ++ [local_irq_save; getnstimeofday real; pr_info_gpio_event]
               ++ map getnstimeofday (polled1 ++ [ts_high])
               ++ [gpiod_set_value PPS_GPIO_HIGH]
               ++ map getnstimeofday (polled2 ++ [ts1])
               ++ [gpiod_set_value PPS_GPIO_LOW; getnstimeofday ts2;
                   local_irq_restore] /\
    gpio_writes (trace m') = gpio_writes (trace m) ++ [PPS_GPIO_HIGH; PPS_GPIO_LOW] /\
    late_reports (trace m') = late_reports (trace m) /\
    gpio_instr_time (devdata m') = Z.quot (instr + measured) 2.
Proof.
  intros req instr deassert_threshold assert_threshold measured
    Hc Hs Hn H1 H2 Hd Ha Hm.
  pose proof (time_gpio_assert_ns_fits m Ha) as Ea.
  pose proof (time_gpio_deassert_ns_fits m Hd) as Ed.
  fold instr in Ea, Ed. fold assert_threshold in Ea. fold deassert_threshold in Ed.
  eexists. split.
  - apply (callback_on_time m real later polled1 ts_high later1 polled2 ts1 ts2 rest Hc);
      fold req; rewrite ?Ea, ?Ed; assumption.
  - simpl. repeat split.
    + repeat (rewrite ?gpio_writes_app, ?gpio_writes_readings; simpl). reflexivity.
    + repeat (rewrite ?late_reports_app, ?late_reports_readings; simpl). apply app_nil_r.
    + rewrite TIMESPEC_TO_NS_SUB. unfold Long.add. rewrite wrap_add_r.
      fold instr measured. rewrite (wrap_fits _ Hm).
      apply div_fits; [lia | exact Hm].
Qed.

Lemma on_time_cycle_witness :
  exists m',
    hrtimer_callback (example_machine on_time_readings) = Some (HRTIMER_RESTART, m') /\
    gpio_writes (trace m') = [PPS_GPIO_HIGH; PPS_GPIO_LOW] /\
    gpio_instr_time (devdata m') = 850.
Proof.
  destruct (on_time_cycle_pulses_and_remeasures
              (example_machine on_time_readings)
              (mk_timespec 10 999960000)
              [ mk_timespec 10 999968000; mk_timespec 10 999969500;
                mk_timespec 10 999990000; mk_timespec 10 999999200;
                mk_timespec 10 999999900 ]
              [ mk_timespec 10 999968000 ] (mk_timespec 10 999969500)
              [ mk_timespec 10 999990000; mk_timespec 10 999999200;
                mk_timespec 10 999999900 ]
              [ mk_timespec 10 999990000 ] (mk_timespec 10 999999200)
              (mk_timespec 10 999999900) [])
    as (m' & Hrun & _ & Hw & _ & Hi).
  - reflexivity.
  - reflexivity.
  - vm_compute. discriminate.
  - repeat split.
  - repeat split.
  - fits_by_computation.
  - fits_by_computation.
  - fits_by_computation.
  - exists m'. repeat split; assumption.
Defined.

(** C1 (as stated, refuted): on this on-time cycle the first busy loop ends
    at 10.999969500 and the second at 10.999999200, so the claimed update
    would give [(1000 + 29700) / 2 = 15350]; the callback stores 850, the
    mean of 1000 and the 700ns between the end of the second loop and the
    reading taken after the LOW write. *)
Lemma on_time_measured_span_counterexample :
  exists m',
    hrtimer_callback (example_machine on_time_readings) = Some (HRTIMER_RESTART, m') /\
    polls (keep_polling (mk_timespec 10 999950000) (NSEC_PER_SEC - 1000 - 30000))
      (tl on_time_readings)
      [mk_timespec 10 999968000] (mk_timespec 10 999969500)
      [ mk_timespec 10 999990000; mk_timespec 10 999999200;
        mk_timespec 10 999999900 ] /\
    polls (keep_polling (mk_timespec 10 999950000) (NSEC_PER_SEC - 1000))
      [ mk_timespec 10 999990000; mk_timespec 10 999999200;
        mk_timespec 10 999999900 ]
      [mk_timespec 10 999990000] (mk_timespec 10 999999200)
      [mk_timespec 10 999999900] /\
    gpio_instr_time (devdata m')
    <> Z.quot (1000 + elapsed_ns (mk_timespec 10 999999200) (mk_timespec 10 999969500)) 2.
Proof.
  eexists. split; [vm_compute; reflexivity |].
  split; [repeat split |]. split; [repeat split |].
  vm_compute. discriminate.
Qed.

(** ** Every cycle ends, and how it rearms *)

Lemma keep_polling_other_second req threshold ts :
  tv_sec ts <> tv_sec req -> keep_polling req threshold ts = false.
Proof.
  intros H. unfold keep_polling.
  replace (tv_sec req =? tv_sec ts) with false; [reflexivity |].
  symmetry. apply Z.eqb_neq. congruence.
Qed.

(** A busy loop that ends leaves a reading behind whenever one followed the
    reading that made it end. *)
Lemma polls_leaves_second cond1 cond2 before a b c rest :
  cond1 a = false -> cond2 a = false -> cond2 b = false ->
  exists polled1 last1 later1 polled2 last2 ts2 later2,
    polls cond1 (before ++ a :: b :: c :: rest) polled1 last1 later1 /\
    polls cond2 later1 polled2 last2 (ts2 :: later2).
Proof.
  intros Ha1 Ha2 Hb2.
  destruct (polls_first_exit cond1 before a (b :: c :: rest) Ha1)
    as (polled1 & last1 & later1 & Hp1 & _ & unread & Hu & Hlater).
  destruct unread as [| u unread] using rev_ind.
  - simpl in Hlater. subst later1.
    destruct (polls_first_exit cond2 [] b (c :: rest) Hb2)
      as (polled2 & last2 & later2 & Hp2 & _ & unread2 & _ & Hlater2).
    simpl in Hp2.
    destruct unread2 as [| u2 unread2]; simpl in Hlater2; subst later2;
      eauto 10.
  - clear IHunread.
    assert (u = a) as ->.
    { rewrite app_comm_cons, app_assoc in Hu.
      apply app_inj_tail in Hu. symmetry. apply Hu. }
    subst later1. rewrite <- app_assoc in Hp1. simpl in Hp1.
    destruct (polls_first_exit cond2 unread a (b :: c :: rest) Ha2)
      as (polled2 & last2 & later2 & Hp2 & _ & unread2 & _ & Hlater2).
    destruct unread2 as [| u2 unread2]; simpl in Hlater2; subst later2;
      eauto 10.
Qed.

(** The callback returns on any clock that leaves the requested second. *)
Lemma callback_total m real later :
  clock m = real :: later ->
  leaves_second (requested_wake m) later ->
  exists m', hrtimer_callback m = Some (HRTIMER_RESTART, m').
Proof.
  intros Hc (before & a & b & c & rest & Hlater & Ha & Hb).
  destruct (Z_lt_le_dec (tv_sec (requested_wake m)) (tv_sec real)) as [Hreg | Hreg].
  { eexists. apply (callback_regression m real later Hc Hreg). }
  destruct (Z.eq_dec (tv_sec (requested_wake m)) (tv_sec real)) as [Heq | Hne].
  2: { eexists. apply (callback_late m real later Hc Hreg). left. exact Hne. }
  destruct (Z_lt_le_dec (time_gpio_assert_ns m) (tv_nsec real)) as [Hgt | Hle].
  { eexists. apply (callback_late m real later Hc Hreg). right. exact Hgt. }
  destruct (polls_leaves_second
              (keep_polling (requested_wake m) (time_gpio_assert_ns m))
              (keep_polling (requested_wake m) (time_gpio_deassert_ns m))
              before a b c rest)
    as (polled1 & last1 & later1 & polled2 & last2 & ts2 & later2 & Hp1 & Hp2);
    try (apply keep_polling_other_second; assumption).
  rewrite <- Hlater in Hp1.
  eexists.
  apply (callback_on_time m real later polled1 last1 later1 polled2 last2 ts2 later2 Hc);
    auto.
Qed.

(** An on-time cycle that returns has gone through both busy loops. *)
Lemma callback_on_time_inv m real later r m' :
  clock m = real :: later ->
  tv_sec real = tv_sec (requested_wake m) ->
  tv_nsec real <= time_gpio_assert_ns m ->
  hrtimer_callback m = Some (r, m') ->
  exists polled1 ts_high later1 polled2 ts1 ts2 rest,
    polls (keep_polling (requested_wake m) (time_gpio_assert_ns m))
      later polled1 ts_high later1 /\
    polls (keep_polling (requested_wake m) (time_gpio_deassert_ns m))
      later1 polled2 ts1 (ts2 :: rest).
Proof.
  intros Hc Hs Hn H. unfold requested_wake in *.
  destruct m as [c t w a [kt instr]]; simpl in *; subst c.
  revert H. run_callback.
  rewrite Zgtb_false by (rewrite Hs; apply Z.le_refl).
  rewrite Hs, Z.eqb_refl. simpl.
  rewrite (Zgtb_false _ _ Hn).
  match goal with
  | |- context [busy_loop ?c ?mm] => destruct (busy_loop c mm) as [[ts_high m1] |] eqn:E1
  end; [| discriminate].
  apply busy_loop_inv in E1 as (polled1 & later1 & Hp1 & ->). simpl in Hp1.
  simpl.
  match goal with
  | |- context [busy_loop ?c ?mm] => destruct (busy_loop c mm) as [[ts1 m2] |] eqn:E2
  end; [| discriminate].
  apply busy_loop_inv in E2 as (polled2 & later2 & Hp2 & ->). simpl in Hp2.
  simpl.
  destruct later2 as [| ts2 rest]; [discriminate |].
  intros _. exists polled1, ts_high, later1, polled2, ts1, ts2, rest.
  split; assumption.
Qed.

(** What a run that ends in the [done:] part leaves in the timer. *)
Lemma rearm_of_run m sec avg' c t w i r m' :
  Some (HRTIMER_RESTART,
        mk_machine c t w avg'
          (mk_devdata
             (ktime_set (Long.add sec 1)
                (Long.sub (Long.sub (time_gpio_assert_ns m) avg') SAFETY_INTERVAL_NS))
             i))
  = Some (r, m') ->
  Long.fits (sec + 1) ->
  Long.fits (NSEC_PER_SEC - gpio_pulse_width_ns m - gpio_instr_time (devdata m)
             - hrtimer_avg_latency m' - SAFETY_INTERVAL_NS) ->
  r = HRTIMER_RESTART /\
  timer (devdata m')
  = ktime_set (sec + 1)
      (NSEC_PER_SEC - gpio_pulse_width_ns m - gpio_instr_time (devdata m)
       - hrtimer_avg_latency m' - SAFETY_INTERVAL_NS).
Proof.
  intros H Hsec Hfit. injection H as <- <-. cbn [hrtimer_avg_latency] in Hfit.
  split; [reflexivity |]. cbn [timer devdata hrtimer_avg_latency].
  rewrite rearm_nsec_wrap. unfold Long.add. rewrite (wrap_fits _ Hsec).
  f_equal.
  match goal with
  | |- Long.wrap ?x = ?y => replace x with y by lia
  end.
  apply wrap_fits. exact Hfit.
Qed.

(** C2 (amended): every cycle that passes the clock-regression check ends on
    a clock that leaves the requested second, and when a cycle ends the
    timer is rearmed (the callback returns [HRTIMER_RESTART]) for the second
    after the requested one, at nanosecond offset
    [NSEC_PER_SEC - pulse_width - instr_time - avg_latency - SAFETY_INTERVAL_NS],
    where [avg_latency] is the average as updated by this cycle and
    [instr_time] is the value [gpio_instr_time] had when the cycle began. *)
Theorem cycle_rearms_after_requested_second (m : machine) (real : timespec)
    (later : list timespec) :
  let req := requested_wake m in
  clock m = real :: later ->
  tv_sec real <= tv_sec req ->
  Long.fits (tv_sec req + 1) ->
  (leaves_second req later ->
   exists m', hrtimer_callback m = Some (HRTIMER_RESTART, m')) /\
  (forall r m',
      hrtimer_callback m = Some (r, m') ->
      Long.fits (NSEC_PER_SEC - gpio_pulse_width_ns m - gpio_instr_time (devdata m)
                 - hrtimer_avg_latency m' - SAFETY_INTERVAL_NS) ->
      r = HRTIMER_RESTART /\
      timer (devdata m')
      = ktime_set (tv_sec req + 1)
          (NSEC_PER_SEC - gpio_pulse_width_ns m - gpio_instr_time (devdata m)
           - hrtimer_avg_latency m' - SAFETY_INTERVAL_NS)).
Proof.
  intros req Hc Hreg Hsec. split.
  - intros Hl. apply (callback_total m real later Hc Hl).
  - intros r m' Hrun Hfit.
    destruct (Z.eq_dec (tv_sec req) (tv_sec real)) as [Heq | Hne].
    + destruct (Z_lt_le_dec (time_gpio_assert_ns m) (tv_nsec real)) as [Hgt | Hle].
      * pose proof (callback_late m real later Hc Hreg (or_intror Hgt)) as E.
        cbv zeta in E. rewrite E in Hrun.
        exact (rearm_of_run _ _ _ _ _ _ _ _ _ Hrun Hsec Hfit).
      * destruct (callback_on_time_inv m real later r m' Hc (eq_sym Heq) Hle Hrun)
          as (polled1 & ts_high & later1 & polled2 & ts1 & ts2 & rest & Hp1 & Hp2).
        pose proof (callback_on_time m real later polled1 ts_high later1 polled2
                      ts1 ts2 rest Hc (eq_sym Heq) Hle Hp1 Hp2) as E.
        cbv zeta in E. rewrite E in Hrun.
        exact (rearm_of_run _ _ _ _ _ _ _ _ _ Hrun Hsec Hfit).
    + pose proof (callback_late m real later Hc Hreg (or_introl Hne)) as E.
      cbv zeta in E. rewrite E in Hrun.
      exact (rearm_of_run _ _ _ _ _ _ _ _ _ Hrun Hsec Hfit).
Qed.

Lemma cycle_rearms_witness :
  exists m',
    hrtimer_callback (example_machine on_time_readings) = Some (HRTIMER_RESTART, m') /\
    gpio_instr_time (devdata m') = 850 /\
    timer (devdata m') = ktime_set 11 (NSEC_PER_SEC - 30000 - 1000 - 10000 - 10000).
Proof.
  eexists. split; [vm_compute; reflexivity |]. split; [reflexivity |].
  match goal with
  | |- timer (devdata ?result) = _ =>
      destruct (proj2 (cycle_rearms_after_requested_second
                         (example_machine on_time_readings)
                         (mk_timespec 10 999960000) (tl on_time_readings)
                         eq_refl
                         ltac:(vm_compute; discriminate)
                         ltac:(fits_by_computation))
                  HRTIMER_RESTART result
                  ltac:(vm_compute; reflexivity)
                  ltac:(fits_by_computation)) as [_ Ht]
  end.
  rewrite Ht. reflexivity.
Defined.

(** C2 (as stated, refuted): the on-time cycle above updates
    [gpio_instr_time] from 1000 to 850, and the timer is not rearmed at the
    offset computed from the updated value. *)
Lemma rearm_uses_entry_instr_time_counterexample :
  exists m',
    hrtimer_callback (example_machine on_time_readings) = Some (HRTIMER_RESTART, m') /\
    tv_sec (mk_timespec 10 999960000)
    <= tv_sec (requested_wake (example_machine on_time_readings)) /\
    gpio_instr_time (devdata m') = 850 /\
    timer (devdata m')
    <> ktime_set (tv_sec (requested_wake (example_machine on_time_readings)) + 1)
         (NSEC_PER_SEC - gpio_pulse_width_ns m' - gpio_instr_time (devdata m')
          - hrtimer_avg_latency m' - SAFETY_INTERVAL_NS).
Proof.
  eexists. split; [vm_compute; reflexivity |].
  split; [vm_compute; discriminate |].
  split; [reflexivity |].
  vm_compute. discriminate.
Qed.

(** ** Termination of the busy loops *)

(** C10: a busy loop of the on-time path ([busy_loop (keep_polling req
    threshold)], with the assert or the deassert threshold) returns on every
    clock that delivers a reading outside the requested second: it stops no
    later than at the first such reading, so every reading it takes but the
    last lies in the requested second, before the threshold. *)
Theorem busy_loop_ends_when_second_changes (req : timespec) (threshold : Z)
    (m : machine) (before : list timespec) (a : timespec) (rest : list timespec) :
  clock m = before ++ a :: rest ->
  tv_sec a <> tv_sec req ->
  exists polled last later,
    busy_loop (keep_polling req threshold) m
    = Some (last, after_readings m (polled ++ [last]) later) /\
    clock m = polled ++ last :: later /\
    (length polled <= length before)%nat /\
    Forall (fun ts => tv_sec ts = tv_sec req /\ tv_nsec ts < threshold) polled /\
    (tv_sec last <> tv_sec req \/ threshold <= tv_nsec last).
Proof.
  intros Hc Ha.
  destruct (polls_first_exit (keep_polling req threshold) before a rest
              (keep_polling_other_second req threshold a Ha))
    as (polled & last & later & Hp & Hlen & _).
  rewrite <- Hc in Hp.
  exists polled, last, later. split; [apply busy_loop_polls; exact Hp |].
  destruct Hp as (Hclock & Hpolled & Hlast).
  split; [exact Hclock |]. split; [exact Hlen |]. split.
  - apply Forall_forall. intros ts Hin.
    rewrite forallb_forall in Hpolled. specialize (Hpolled ts Hin).
    unfold keep_polling in Hpolled. apply andb_prop in Hpolled as [H1 H2].
    apply Z.eqb_eq in H1. apply Z.ltb_lt in H2. split; [congruence | exact H2].
  - unfold keep_polling in Hlast. apply andb_false_iff in Hlast as [H1 | H2].
    + left. apply Z.eqb_neq in H1. congruence.
    + right. apply Z.ltb_ge in H2. exact H2.
Qed.

Lemma busy_loop_ends_witness :
  exists polled last later,
    busy_loop (keep_polling (mk_timespec 10 999950000) 999969000)
      (example_machine [mk_timespec 10 1; mk_timespec 10 2; mk_timespec 11 0;
                        mk_timespec 11 1])
    = Some (last,
            after_readings
              (example_machine [mk_timespec 10 1; mk_timespec 10 2; mk_timespec 11 0;
                                mk_timespec 11 1])
              (polled ++ [last]) later) /\
    (length polled <= 2)%nat.
Proof.
  destruct (busy_loop_ends_when_second_changes
              (mk_timespec 10 999950000) 999969000
              (example_machine [mk_timespec 10 1; mk_timespec 10 2; mk_timespec 11 0;
                                mk_timespec 11 1])
              [mk_timespec 10 1; mk_timespec 10 2] (mk_timespec 11 0)
              [mk_timespec 11 1])
    as (polled & last & later & Hrun & _ & Hlen & _).
  - reflexivity.
  - vm_compute. discriminate.
  - exists polled, last, later. split; [exact Hrun | exact Hlen].
Defined.

(** ** Every cycle, by cases *)

Lemma callback_reads_clock m r m' :
  hrtimer_callback m = Some (r, m') ->
  exists real later, clock m = real :: later.
Proof.
  intros H. destruct m as [c t w a d]. destruct c as [| real later].
  - revert H. run_callback. discriminate.
  - exists real, later. reflexivity.
Qed.

Lemma callback_cases m real later r m' :
  clock m = real :: later ->
  hrtimer_callback m = Some (r, m') ->
  r = HRTIMER_RESTART /\ cycle_outcome m real later m'.
Proof.
  intros Hc Hrun. unfold cycle_outcome.
  destruct (Z_lt_le_dec (tv_sec (requested_wake m)) (tv_sec real)) as [Hreg | Hreg].
  { rewrite (callback_regression m real later Hc Hreg) in Hrun.
    injection Hrun as <- <-. split; [reflexivity |]. left. split; [exact Hreg | reflexivity]. }
  destruct (Z.eq_dec (tv_sec (requested_wake m)) (tv_sec real)) as [Heq | Hne].
  2: { pose proof (callback_late m real later Hc Hreg (or_introl Hne)) as E.
       cbv zeta in E. rewrite E in Hrun. injection Hrun as <- <-.
       split; [reflexivity |]. right. left. auto. }
  destruct (Z_lt_le_dec (time_gpio_assert_ns m) (tv_nsec real)) as [Hgt | Hle].
  { pose proof (callback_late m real later Hc Hreg (or_intror Hgt)) as E.
    cbv zeta in E. rewrite E in Hrun. injection Hrun as <- <-.
    split; [reflexivity |]. right. left. auto. }
  destruct (callback_on_time_inv m real later r m' Hc (eq_sym Heq) Hle Hrun)
    as (polled1 & ts_high & later1 & polled2 & ts1 & ts2 & rest & Hp1 & Hp2).
  pose proof (callback_on_time m real later polled1 ts_high later1 polled2
                ts1 ts2 rest Hc (eq_sym Heq) Hle Hp1 Hp2) as E.
  cbv zeta in E. rewrite E in Hrun. injection Hrun as <- <-.
  split; [reflexivity |]. right. right.
  split; [auto |]. split; [exact Hle |].
  exists polled1, ts_high, later1, polled2, ts1, ts2, rest.
  split; [exact Hp1 |]. split; [exact Hp2 |]. reflexivity.
Qed.

(** ** The latency tracker *)

Lemma update_hrtimer_avg_latency_no_overflow avg sample :
  Long.fits (3 * avg + sample) ->
  update_hrtimer_avg_latency avg sample
  = if sample >? avg then sample else Z.quot (3 * avg + sample) 4.
Proof.
  intros Hfit. unfold update_hrtimer_avg_latency.
  destruct (sample >? avg); [reflexivity |].
  unfold Long.add, Long.mul. rewrite wrap_add_l, (wrap_fits _ Hfit).
  apply div_fits; [lia | exact Hfit].
Qed.

(** C3: every cycle of the callback that passes the clock-regression check
    ends (on a clock that leaves the requested second) and stores as
    [hrtimer_avg_latency] the sample [actual - requested] when the sample
    exceeds the old average, and [(3 * avg + sample) / 4] otherwise.  Three
    cycles run from an average of 10000 with samples 5000, 20000 and 8000
    store 8750, 20000 and 17000. *)
Theorem callback_updates_latency_average :
  (forall (m : machine) (real : timespec) (later : list timespec),
      let req := requested_wake m in
      let avg := hrtimer_avg_latency m in
      let sample := elapsed_ns real req in
      clock m = real :: later ->
      tv_sec real <= tv_sec req ->
      Long.fits sample ->
      Long.fits (3 * avg + sample) ->
      (leaves_second req later ->
       exists m', hrtimer_callback m = Some (HRTIMER_RESTART, m')) /\
      (forall r m',
          hrtimer_callback m = Some (r, m') ->
          hrtimer_avg_latency m'
          = if sample >? avg then sample else Z.quot (3 * avg + sample) 4)) /\
  hrtimer_avg_latency (example_machine tracker_readings) = 10000 /\
  exists m',
    tracked_cycles 3 (example_machine tracker_readings)
    = Some ([(5000, 8750); (20000, 20000); (8000, 17000)], m').
Proof.
  split; [| split; [reflexivity | eexists; vm_compute; reflexivity]].
  intros m real later req avg sample Hc Hreg Hs Hfit. split.
  - intros Hl. apply (callback_total m real later Hc Hl).
  - intros r m' Hrun.
    destruct (callback_cases m real later r m' Hc Hrun) as [_ Hcases].
    unfold cycle_outcome in Hcases. fold req in Hcases.
    assert (forall rest events instr,
               hrtimer_avg_latency (done_result m real rest events instr)
               = if sample >? avg then sample else Z.quot (3 * avg + sample) 4)
      as Hdone.
    { intros rest events instr. cbn [done_result hrtimer_avg_latency]. fold req avg.
      rewrite TIMESPEC_TO_NS_SUB. fold sample. rewrite (wrap_fits _ Hs).
      apply update_hrtimer_avg_latency_no_overflow, Hfit. }
    destruct Hcases as [[Hlt _] | [(_ & _ & ->) | (_ & _ & Hon)]].
    + lia.
    + apply Hdone.
    + destruct Hon as (p1 & th & l1 & p2 & t1 & t2 & rest & _ & _ & ->). apply Hdone.
Qed.

Lemma callback_updates_latency_average_witness :
  exists m',
    hrtimer_callback (example_machine [mk_timespec 10 999980000])
    = Some (HRTIMER_RESTART, m') /\
    hrtimer_avg_latency m' = 30000.
Proof.
  eexists. split; [vm_compute; reflexivity |].
  match goal with
  | |- hrtimer_avg_latency ?result = _ =>
      rewrite (proj2 (proj1 callback_updates_latency_average
                        (example_machine [mk_timespec 10 999980000])
                        (mk_timespec 10 999980000) [] eq_refl
                        ltac:(vm_compute; discriminate)
                        ltac:(fits_by_computation)
                        ltac:(fits_by_computation))
                 HRTIMER_RESTART result ltac:(vm_compute; reflexivity))
  end.
  reflexivity.
Defined.

(** ** Module start-up *)

(** C7: with a pulse width of at most 100000ns [pps_gen_gpio_init] registers
    the driver and returns 0; with any larger width it reports the error,
    returns [-EINVAL] and registers nothing. *)
Theorem init_checks_pulse_width (m : machine) :
  (0 <= gpio_pulse_width_ns m <= 100000 ->
   pps_gen_gpio_init m = Some (0, log platform_driver_register m)) /\
  (gpio_pulse_width_ns m > 100000 ->
   pps_gen_gpio_init m = Some (- EINVAL, log pr_err_width m)).
Proof.
  unfold pps_gen_gpio_init, bind, read, emit, update, ret, GPIO_PULSE_WIDTH_MAX_NS,
    NSEC_PER_USEC.
  split; intros H.
  - rewrite Zgtb_false by lia. reflexivity.
  - rewrite Zgtb_true by lia. reflexivity.
Qed.

Lemma init_checks_pulse_width_witness :
  pps_gen_gpio_init (example_machine [])
  = Some (0, log platform_driver_register (example_machine [])).
Proof.
  apply (proj1 (init_checks_pulse_width (example_machine []))).
  vm_compute. split; discriminate.
Defined.

(** ** Calibration *)

Lemma calibrate_loop_run samples :
  forall acc m rest,
    Long.fits acc ->
    clock m = readings_of samples ++ rest ->
    pps_gen_calibrate_loop (length samples) acc m
    = Some (Long.wrap (acc + sum (durations_of samples)),
            mk_machine rest (trace m ++ calibration_events samples)
              (gpio_pulse_width_ns m) (hrtimer_avg_latency m) (devdata m)).
Proof.
  induction samples as [| [ts1 ts2] samples IH]; intros acc m rest Hacc Hc.
  - destruct m as [c t w a d]; simpl in *; subst c.
    unfold ret. rewrite Z.add_0_r, (wrap_fits _ Hacc), app_nil_r. reflexivity.
  - destruct m as [c t w a d]; simpl in Hc; subst c.
    cbn [length pps_gen_calibrate_loop].
    unfold bind at 1, emit at 1, update at 1.
    unfold bind at 1, GETNSTIMEOFDAY at 1. cbn [clock log set_clock].
    unfold bind at 1, emit at 1, update at 1.
    unfold bind at 1, GETNSTIMEOFDAY at 1. cbn [clock log set_clock].
    unfold bind at 1, emit at 1, update at 1.
    cbv zeta.
    rewrite IH with (rest := rest).
    + unfold_machine. f_equal. f_equal.
      * rewrite TIMESPEC_TO_NS_SUB. unfold Long.add.
        rewrite wrap_add_r, wrap_add_l. f_equal.
        unfold durations_of, sum. simpl. lia.
      * f_equal. repeat rewrite <- app_assoc. reflexivity.
    + apply fits_wrap.
    + reflexivity.
Qed.

Lemma gpio_writes_calibration samples :
  gpio_writes (calibration_events samples) = repeat PPS_GPIO_LOW (length samples).
Proof.
  induction samples as [| s samples IH]; simpl; [reflexivity |].
  rewrite IH. reflexivity.
Qed.

Lemma calibrate_run m samples rest :
  length samples = PPS_GEN_CALIBRATE_LOOPS ->
  clock m = readings_of samples ++ rest ->
  Long.fits (sum (durations_of samples)) ->
  let mean := Z.quot (sum (durations_of samples)) 100 in
  pps_gen_calibrate m
  = Some (tt,
          mk_machine rest
            (trace m ++ calibration_events samples ++ [pr_info_gpio_set_takes mean])
            (gpio_pulse_width_ns m) (hrtimer_avg_latency m)
            (mk_devdata (timer (devdata m)) mean)).
Proof.
  intros Hlen Hc Hfit mean. unfold pps_gen_calibrate.
  rewrite <- Hlen at 1.
  erewrite bind_some
    by (apply calibrate_loop_run; [unfold Long.fits, Long.half; lia | exact Hc]).
  destruct m as [c t w a [kt instr]].
  unfold bind, emit, read, update, ret. unfold_machine.
  rewrite Z.add_0_l, (wrap_fits _ Hfit).
  replace (Z.of_nat PPS_GEN_CALIBRATE_LOOPS) with 100 by reflexivity.
  rewrite div_fits by (lia || exact Hfit).
  rewrite <- app_assoc. reflexivity.
Qed.

(** C4: calibration makes exactly 100 rounds of read clock, drive the output
    LOW, read clock; it needs the 200 readings and nothing else, and stores
    as [gpio_instr_time] the mean of the 100 elapsed times (their sum
    divided by 100, the integer division of C). *)
Theorem calibration_stores_mean (m : machine) (samples : list (timespec * timespec))
    (rest : list timespec) :
  let durations := durations_of samples in
  length samples = 100%nat ->
  clock m = readings_of samples ++ rest ->
  Long.fits (sum durations) ->
  exists m',
    pps_gen_calibrate m = Some (tt, m') /\
    clock m' = rest /\
    trace m' = trace m ++ calibration_events samples
               ++ [pr_info_gpio_set_takes (gpio_instr_time (devdata m'))] /\
    gpio_writes (trace m') = gpio_writes (trace m) ++ repeat PPS_GPIO_LOW 100 /\
    gpio_instr_time (devdata m') = Z.quot (sum durations) 100 /\
    Z.abs (sum durations - 100 * gpio_instr_time (devdata m')) < 100.
Proof.
  intros durations Hlen Hc Hfit.
  eexists. split; [apply (calibrate_run m samples rest Hlen Hc Hfit) |].
  cbn [clock trace devdata gpio_instr_time]. fold durations.
  repeat split.
  - rewrite !gpio_writes_app, gpio_writes_calibration, Hlen.
    cbn [gpio_writes]. rewrite app_nil_r. reflexivity.
  - pose proof (Z.quot_rem' (sum durations) 100) as Hq.
    pose proof (Z.rem_bound_abs (sum durations) 100 ltac:(lia)) as Hr.
    replace (sum durations - 100 * Z.quot (sum durations) 100)
      with (Z.rem (sum durations) 100) by lia.
    simpl in Hr. exact Hr.
Qed.

Lemma calibration_witness :
  exists m',
    pps_gen_calibrate (example_machine (readings_of calibration_samples)) = Some (tt, m') /\
    sum (durations_of calibration_samples) = 84950 /\
    gpio_instr_time (devdata m') = 849.
Proof.
  destruct (calibration_stores_mean
              (example_machine (readings_of calibration_samples))
              calibration_samples [])
    as (m' & Hrun & _ & _ & _ & Hmean & _).
  - reflexivity.
  - vm_compute. reflexivity.
  - fits_by_computation.
  - exists m'. split; [exact Hrun |]. split; [reflexivity |].
    rewrite Hmean. reflexivity.
Defined.

(** ** Start and stop *)

Lemma probe_run pdev m samples now rest :
  devm_kzalloc_ok pdev = true ->
  of_gpio_named_count pdev = 1 ->
  devm_gpiod_get_result pdev = gpiod_ok ->
  0 <= gpiod_direction_output_ret pdev ->
  length samples = PPS_GEN_CALIBRATE_LOOPS ->
  clock m = readings_of samples ++ now :: rest ->
  Long.fits (sum (durations_of samples)) ->
  let mean := Z.quot (sum (durations_of samples)) 100 in
  let kt := ktime_set (Long.add (tv_sec now) 1)
              (Long.sub (Long.sub (Long.sub NSEC_PER_SEC (gpio_pulse_width_ns m)) mean)
                        (Long.mul 3 SAFETY_INTERVAL_NS)) in
  pps_gen_gpio_probe pdev m
  = Some (0,
          mk_machine rest
            (trace m ++ probe_setup_events ++ calibration_events samples
             ++ [pr_info_gpio_set_takes mean; hrtimer_init; getnstimeofday now;
                 hrtimer_start kt])
            (gpio_pulse_width_ns m) (hrtimer_avg_latency m)
            (mk_devdata kt mean)).
Proof.
  intros Hk Hn Hg Hd Hlen Hc Hfit mean kt.
  destruct m as [c t w a d]. cbn [clock] in Hc. subst c.
  unfold pps_gen_gpio_probe.
  unfold bind at 1, emit at 1, update at 1.
  unfold bind at 1, emit at 1, update at 1.
  rewrite Hk, Hn, Hg. cbn [negb Z.eqb Pos.eqb].
  unfold bind at 1, update at 1.
  unfold bind at 1, emit at 1, update at 1.
  unfold bind at 1, emit at 1, update at 1.
  unfold bind at 1, emit at 1, update at 1.
  replace (gpiod_direction_output_ret pdev <? 0) with false
    by (symmetry; apply Z.ltb_ge; exact Hd).
  erewrite bind_some
    by (apply (calibrate_run _ samples (now :: rest) Hlen);
        [unfold_machine; reflexivity | exact Hfit]).
  unfold pps_gen_first_timer_event, hrtimer_start_abs.
  unfold bind, emit, read, update, ret, GETNSTIMEOFDAY.
  unfold_machine. subst mean kt.
  repeat (rewrite <- app_assoc; cbn [app]). reflexivity.
Qed.

Lemma line_level_app t1 t2 level :
  line_level level (t1 ++ t2) = line_level (line_level level t1) t2.
Proof.
  revert level. induction t1 as [| e t1 IH]; intros level; [reflexivity |].
  destruct e; simpl; apply IH.
Qed.

Lemma line_level_calibration samples level :
  samples <> [] ->
  line_level level (calibration_events samples) = Some PPS_GPIO_LOW.
Proof.
  revert level. induction samples as [| s samples IH]; intros level Hne; [congruence |].
  destruct samples as [| s' samples]; [reflexivity |].
  change (calibration_events (s :: s' :: samples))
    with ([local_irq_save; getnstimeofday (fst s); gpiod_set_value PPS_GPIO_LOW;
           getnstimeofday (snd s); local_irq_restore]
          ++ calibration_events (s' :: samples)).
  rewrite line_level_app. apply IH. discriminate.
Qed.

(** C8 (amended): when every step of start-up succeeds, [probe] acquires the
    output line with initial level LOW and then drives it HIGH
    ([gpiod_direction_output] with [PPS_GPIO_HIGH]) before calibration runs;
    the hundred writes of calibration leave it LOW.  The first deadline
    armed is the second after the current one, at nanosecond offset
    [NSEC_PER_SEC - pulse_width - instr_time - 3 * SAFETY_INTERVAL_NS] with
    [instr_time] the freshly calibrated value. *)
Theorem probe_calibrates_and_arms (pdev : platform_device) (m : machine)
    (samples : list (timespec * timespec)) (now : timespec) (rest : list timespec) :
  let mean := Z.quot (sum (durations_of samples)) 100 in
  let nsec := NSEC_PER_SEC - gpio_pulse_width_ns m - mean - 3 * SAFETY_INTERVAL_NS in
  devm_kzalloc_ok pdev = true ->
  of_gpio_named_count pdev = 1 ->
  devm_gpiod_get_result pdev = gpiod_ok ->
  0 <= gpiod_direction_output_ret pdev ->
  length samples = 100%nat ->
  clock m = readings_of samples ++ now :: rest ->
  Long.fits (sum (durations_of samples)) ->
  Long.fits (tv_sec now + 1) ->
  Long.fits nsec ->
  exists m',
    pps_gen_gpio_probe pdev m = Some (0, m') /\
    trace m' = trace m ++ probe_setup_events ++ calibration_events samples
               ++ [pr_info_gpio_set_takes mean; hrtimer_init; getnstimeofday now;
                   hrtimer_start (ktime_set (tv_sec now + 1) nsec)] /\
    (forall level, line_level level probe_setup_events = Some PPS_GPIO_HIGH) /\
    (forall level,
        line_level level (probe_setup_events ++ calibration_events samples)
        = Some PPS_GPIO_LOW) /\
    gpio_instr_time (devdata m') = mean /\
    timer (devdata m') = ktime_set (tv_sec now + 1) nsec.
Proof.
  intros mean nsec Hk Hn Hg Hd Hlen Hc Hfit Hsec Hnsec.
  assert (Long.sub (Long.sub (Long.sub NSEC_PER_SEC (gpio_pulse_width_ns m)) mean)
                   (Long.mul 3 SAFETY_INTERVAL_NS) = nsec) as Ensec.
  { unfold Long.sub, Long.mul.
    rewrite (wrap_fits (3 * SAFETY_INTERVAL_NS)) by fits_by_computation.
    rewrite wrap_sub_chain. apply wrap_fits, Hnsec. }
  assert (Long.add (tv_sec now) 1 = tv_sec now + 1) as Esec
      by (apply wrap_fits, Hsec).
  eexists. split.
  - apply (probe_run pdev m samples now rest Hk Hn Hg Hd Hlen Hc Hfit).
  - cbn [trace devdata timer gpio_instr_time]. fold mean. rewrite Ensec, Esec.
    repeat split.
    intros level. rewrite line_level_app. apply line_level_calibration.
    intros ->. discriminate Hlen.
Qed.

Lemma probe_witness :
  exists m',
    pps_gen_gpio_probe working_platform
      (example_machine (readings_of calibration_samples ++ [mk_timespec 5 200000]))
    = Some (0, m') /\
    gpio_instr_time (devdata m') = 849 /\
    timer (devdata m') = ktime_set 6 (NSEC_PER_SEC - 30000 - 849 - 30000).
Proof.
  destruct (probe_calibrates_and_arms working_platform
              (example_machine (readings_of calibration_samples ++ [mk_timespec 5 200000]))
              calibration_samples (mk_timespec 5 200000) [])
    as (m' & Hrun & _ & _ & _ & Hi & Ht).
  - reflexivity.
  - reflexivity.
  - reflexivity.
  - vm_compute. discriminate.
  - reflexivity.
  - reflexivity.
  - fits_by_computation.
  - fits_by_computation.
  - fits_by_computation.
  - exists m'. split; [exact Hrun |]. split; [rewrite Hi | rewrite Ht]; reflexivity.
Defined.

(** C8 (as stated, refuted): on a working platform the trace of [probe] is
    the set-up calls followed by calibration, and the level the set-up calls
    leave on the line is HIGH, not LOW. *)
Lemma probe_line_high_before_calibration_counterexample :
  exists m' after,
    pps_gen_gpio_probe working_platform
      (example_machine (readings_of calibration_samples ++ [mk_timespec 5 200000]))
    = Some (0, m') /\
    trace m' = probe_setup_events ++ calibration_events calibration_samples ++ after /\
    line_level None probe_setup_events = Some PPS_GPIO_HIGH /\
    line_level None probe_setup_events <> Some PPS_GPIO_LOW.
Proof.
  eexists. eexists. split; [vm_compute; reflexivity |].
  split; [vm_compute; reflexivity |].
  split; [reflexivity | discriminate].
Qed.

(** C9 (amended): each call of [remove] cancels the timer once and releases
    the output line once, returns 0 and changes nothing else; the driver
    keeps no record of having been stopped, so a second call makes both
    calls again. *)
Theorem remove_cancels_and_releases_each_call (m : machine) :
  exists m' m'',
    pps_gen_gpio_remove m = Some (0, m') /\
    pps_gen_gpio_remove m' = Some (0, m'') /\
    count is_hrtimer_cancel (trace m') = S (count is_hrtimer_cancel (trace m)) /\
    count is_devm_gpiod_put (trace m') = S (count is_devm_gpiod_put (trace m)) /\
    count is_hrtimer_cancel (trace m'') = S (S (count is_hrtimer_cancel (trace m))) /\
    count is_devm_gpiod_put (trace m'') = S (S (count is_devm_gpiod_put (trace m))) /\
    length (trace m') = S (S (length (trace m))) /\
    clock m' = clock m /\
    devdata m' = devdata m /\
    hrtimer_avg_latency m' = hrtimer_avg_latency m.
Proof.
  eexists. eexists. split; [reflexivity |]. split; [reflexivity |].
  destruct m as [c t w a d]. unfold count. unfold_machine.
  rewrite !filter_app, !length_app. simpl. repeat split; lia.
Qed.

(** C9 (as stated, refuted): after a successful [probe] the timer is armed;
    [remove] then releases the output line while the timer is still armed
    (the release comes before the cancel), and a second [remove] releases
    the line a second time. *)
Lemma remove_releases_armed_line_counterexample :
  exists m0 m1 m2,
    pps_gen_gpio_probe working_platform
      (example_machine (readings_of calibration_samples ++ [mk_timespec 5 200000]))
    = Some (0, m0) /\
    pps_gen_gpio_remove m0 = Some (0, m1) /\
    pps_gen_gpio_remove m1 = Some (0, m2) /\
    released_while_armed false (trace m0) = false /\
    released_while_armed false (trace m1) = true /\
    trace m1 = trace m0 ++ [devm_gpiod_put; hrtimer_cancel] /\
    count is_devm_gpiod_put (trace m2) = 2%nat /\
    m2 <> m1.
Proof.
  eexists. eexists. eexists. split; [vm_compute; reflexivity |].
  split; [vm_compute; reflexivity |].
  split; [vm_compute; reflexivity |].
  split; [vm_compute; reflexivity |].
  split; [vm_compute; reflexivity |].
  split; [vm_compute; reflexivity |].
  split; [vm_compute; reflexivity |].
  intros H. apply (f_equal (fun x => length (trace x))) in H.
  vm_compute in H. discriminate H.
Qed.

(** * Further properties of the driver *)

(** ** Truncating division *)

Lemma quot_bounds x d :
  0 < d ->
  (0 <= x -> d * Z.quot x d <= x < d * Z.quot x d + d) /\
  (x <= 0 -> d * Z.quot x d - d < x <= d * Z.quot x d).
Proof.
  intros Hd. pose proof (Z.quot_rem' x d) as Hq. split; intros Hx.
  - pose proof (Z.rem_bound_pos x d Hx Hd). lia.
  - pose proof (Z.rem_bound_pos (- x) d ltac:(lia) Hd) as Hr.
    rewrite Z.rem_opp_l in Hr by lia. lia.
Qed.

Lemma quot_between x d lo hi :
  0 < d -> d * lo <= x <= d * hi -> lo <= Z.quot x d <= hi.
Proof.
  intros Hd [Hlo Hhi].
  destruct (quot_bounds x d Hd) as [Hpos Hneg].
  destruct (Z_le_gt_dec 0 x) as [Hx | Hx].
  - specialize (Hpos Hx). split; nia.
  - specialize (Hneg ltac:(lia)). split; nia.
Qed.

(** ** The latency tracker: bounds and recovery *)

Lemma update_hrtimer_avg_latency_bounds avg sample :
  Long.fits (3 * avg + sample) ->
  sample <= update_hrtimer_avg_latency avg sample <= Z.max avg sample.
Proof.
  intros Hfit. unfold update_hrtimer_avg_latency.
  destruct (sample >? avg) eqn:Hgt.
  - apply Z.gtb_lt in Hgt. lia.
  - rewrite Z.gtb_ltb in Hgt. apply Z.ltb_ge in Hgt.
    unfold Long.add, Long.mul. rewrite wrap_add_l, (wrap_fits _ Hfit).
    rewrite div_fits by (lia || exact Hfit).
    pose proof (quot_between (3 * avg + sample) 4 sample avg ltac:(lia) ltac:(lia)).
    lia.
Qed.

Lemma update_hrtimer_avg_latency_decreases avg sample :
  0 < avg -> sample < avg ->
  Long.fits (3 * avg + sample) ->
  update_hrtimer_avg_latency avg sample < avg.
Proof.
  intros Hpos Hlt Hfit. unfold update_hrtimer_avg_latency.
  rewrite Zgtb_false by lia.
  unfold Long.add, Long.mul. rewrite wrap_add_l, (wrap_fits _ Hfit).
  rewrite div_fits by (lia || exact Hfit).
  destruct (quot_bounds (3 * avg + sample) 4 ltac:(lia)) as [Hp Hn].
  destruct (Z_le_gt_dec 0 (3 * avg + sample)) as [Hx | Hx].
  - specialize (Hp Hx). lia.
  - specialize (Hn ltac:(lia)). lia.
Qed.

(** X1: when [3 * avg + sample] does not overflow, the new average latency
    is never below the sample just taken and never above the larger of the
    old average and the sample; a sample below a positive average lowers
    it. *)
Theorem latency_average_between_sample_and_max (avg sample : Z) :
  Long.fits (3 * avg + sample) ->
  sample <= update_hrtimer_avg_latency avg sample <= Z.max avg sample /\
  (0 < avg -> sample < avg -> update_hrtimer_avg_latency avg sample < avg).
Proof.
  intros Hfit. split.
  - apply update_hrtimer_avg_latency_bounds, Hfit.
  - intros Hpos Hlt. apply update_hrtimer_avg_latency_decreases; assumption.
Qed.

Lemma latency_average_between_witness :
  5000 <= update_hrtimer_avg_latency 10000 5000 <= 10000.
Proof.
  exact (proj1 (latency_average_between_sample_and_max 10000 5000
                  ltac:(fits_by_computation))).
Defined.

Lemma feed_constant_bounds sample avg :
  0 <= sample <= avg ->
  Long.fits (4 * avg) ->
  forall n,
    sample <= feed_constant n sample avg <= Z.max sample (avg - Z.of_nat n).
Proof.
  intros Hs Hfit. induction n as [| n IH].
  - simpl. lia.
  - unfold feed_constant in *. rewrite Nat.iter_succ.
    set (x := Nat.iter n (fun a => update_hrtimer_avg_latency a sample) avg) in *.
    assert (Long.fits (3 * x + sample)) as Hx
        by (unfold Long.fits, Long.half in *; lia).
    pose proof (update_hrtimer_avg_latency_bounds x sample Hx) as Hb.
    destruct (Z.eq_dec x sample) as [-> | Hne].
    + lia.
    + pose proof (update_hrtimer_avg_latency_decreases x sample
                    ltac:(lia) ltac:(lia) Hx).
      lia.
Qed.

(** X2: recovery is complete.  With a non-negative sample that stays the
    same and an average above it, the average comes down to exactly the
    sample (the truncating division leaves no residue) after at most
    [avg - sample] updates, and then stays there. *)
Theorem latency_average_recovers_to_sample (sample avg : Z) (n : nat) :
  0 <= sample <= avg ->
  Long.fits (4 * avg) ->
  (Z.to_nat (avg - sample) <= n)%nat ->
  feed_constant n sample avg = sample.
Proof.
  intros Hs Hfit Hn.
  pose proof (feed_constant_bounds sample avg Hs Hfit n). lia.
Qed.

Lemma latency_average_recovers_witness :
  feed_constant 12 9990 10000 = 9990.
Proof.
  apply latency_average_recovers_to_sample.
  - vm_compute. split; discriminate.
  - fits_by_computation.
  - vm_compute. repeat constructor.
Defined.

(** ** Interrupt sections *)

Lemma irq_section_app t1 t2 inside :
  irq_section inside (t1 ++ t2) = irq_section (irq_section inside t1) t2.
Proof.
  revert inside. induction t1 as [| e t1 IH]; intros inside; [reflexivity |].
  destruct e; simpl; apply IH.
Qed.

Lemma irq_section_readings l inside :
  irq_section inside (map getnstimeofday l) = inside.
Proof. induction l; simpl; auto. Qed.

Lemma writes_outside_irq_section_app t1 t2 inside :
  writes_outside_irq_section inside (t1 ++ t2)
  = writes_outside_irq_section inside t1
    ++ writes_outside_irq_section (irq_section inside t1) t2.
Proof.
  revert inside. induction t1 as [| e t1 IH]; intros inside; [reflexivity |].
  destruct e; simpl; try apply IH.
  destruct inside; simpl; rewrite IH; reflexivity.
Qed.

Lemma writes_outside_irq_section_readings l inside :
  writes_outside_irq_section inside (map getnstimeofday l) = [].
Proof. induction l; simpl; auto. Qed.

Lemma on_time_events_irq real polled1 ts_high polled2 ts1 ts2 :
  irq_section false (on_time_events real polled1 ts_high polled2 ts1 ts2) = false /\
  writes_outside_irq_section false
    (on_time_events real polled1 ts_high polled2 ts1 ts2) = [].
Proof.
  unfold on_time_events. split.
  - repeat (rewrite ?irq_section_app, ?irq_section_readings; simpl). reflexivity.
  - repeat (rewrite ?writes_outside_irq_section_app,
              ?writes_outside_irq_section_readings,
              ?irq_section_app, ?irq_section_readings; simpl).
    reflexivity.
Qed.

(** ** What every cycle does *)

(** X3: a cycle that ends always asks for the timer to be restarted and
    never changes the pulse width.  When the nanosecond offset it passes to
    [ktime_set] is a proper one (from 0 to below [NSEC_PER_SEC]) and the
    actual wake-up reading is well formed, the time point it arms is in the
    second after the later of the requested and the actual wake-up second,
    at that offset, and lies after both the requested and the actual
    wake-up time. *)
Theorem cycle_rearms_after_both_wakes (m : machine) (real : timespec)
    (later : list timespec) (r : hrtimer_restart) (m' : machine) :
  let req := requested_wake m in
  clock m = real :: later ->
  hrtimer_callback m = Some (r, m') ->
  Long.fits (tv_sec req + 1) ->
  Long.fits (tv_sec real + 1) ->
  0 <= tv_nsec real < NSEC_PER_SEC ->
  0 <= kt_nsec (timer (devdata m')) < NSEC_PER_SEC ->
  r = HRTIMER_RESTART /\
  gpio_pulse_width_ns m' = gpio_pulse_width_ns m /\
  requested_wake m'
  = mk_timespec (Z.max (tv_sec req) (tv_sec real) + 1) (kt_nsec (timer (devdata m'))) /\
  ns_of req < ns_of (requested_wake m') /\
  ns_of real < ns_of (requested_wake m').
Proof.
  intros req Hc Hrun Hreq Hreal Hrn Hoff.
  destruct (callback_cases m real later r m' Hc Hrun) as [Hr Hcases].
  split; [exact Hr |]. unfold cycle_outcome in Hcases. fold req in Hcases.
  assert (gpio_pulse_width_ns m' = gpio_pulse_width_ns m /\
          kt_sec (timer (devdata m')) = Z.max (tv_sec req) (tv_sec real) + 1)
    as [Hw Hsec].
  { destruct Hcases as [[Hlt ->] | [(Hle & _ & ->) | (Heq & _ & Hon)]].
    - cbn [regression_result gpio_pulse_width_ns devdata timer kt_sec].
      unfold Long.add. rewrite (wrap_fits _ Hreal). split; lia.
    - cbn [done_result gpio_pulse_width_ns devdata timer kt_sec]. fold req.
      unfold Long.add. rewrite (wrap_fits _ Hreq). split; lia.
    - destruct Hon as (p1 & th & l1 & p2 & t1 & t2 & rest & _ & _ & ->).
      cbn [done_result gpio_pulse_width_ns devdata timer kt_sec]. fold req.
      unfold Long.add. rewrite (wrap_fits _ Hreq). split; lia. }
  split; [exact Hw |].
  assert (requested_wake m'
          = mk_timespec (Z.max (tv_sec req) (tv_sec real) + 1)
              (kt_nsec (timer (devdata m')))) as Hwake.
  { unfold requested_wake, KTIME_TO_TIMESPEC. rewrite Hsec.
    rewrite (Z.div_small _ _ Hoff), (Z.mod_small _ _ Hoff), Z.add_0_r. reflexivity. }
  split; [exact Hwake |]. rewrite Hwake.
  assert (0 <= tv_nsec req < NSEC_PER_SEC) as Hqn.
  { unfold req, requested_wake, KTIME_TO_TIMESPEC. cbn [tv_nsec].
    apply Z.mod_pos_bound. reflexivity. }
  unfold ns_of. cbn [tv_sec tv_nsec]. unfold NSEC_PER_SEC in *. split; nia.
Qed.

Lemma cycle_rearms_after_both_wakes_witness :
  exists m',
    hrtimer_callback (example_machine [mk_timespec 11 5]) = Some (HRTIMER_RESTART, m') /\
    requested_wake m' = mk_timespec 12 999949000.
Proof.
  eexists. split; [vm_compute; reflexivity |].
  match goal with
  | |- requested_wake ?result = _ =>
      destruct (cycle_rearms_after_both_wakes
                  (example_machine [mk_timespec 11 5]) (mk_timespec 11 5) []
                  HRTIMER_RESTART result eq_refl
                  ltac:(vm_compute; reflexivity)
                  ltac:(fits_by_computation)
                  ltac:(fits_by_computation)
                  ltac:(vm_compute; split; [discriminate | reflexivity])
                  ltac:(vm_compute; split; [discriminate | reflexivity]))
        as (_ & _ & Hk & _)
  end.
  rewrite Hk. reflexivity.
Defined.

(** X4: every write the callback makes to the output line lies between its
    [local_irq_save] and its [local_irq_restore].  A late or on-time cycle
    closes the section it opened; a clock-regression cycle returns with the
    section still open (it never calls [local_irq_restore]). *)
Theorem cycle_writes_inside_irq_section (m : machine) (real : timespec)
    (later : list timespec) (r : hrtimer_restart) (m' : machine) :
  clock m = real :: later ->
  hrtimer_callback m = Some (r, m') ->
  exists events,
    trace m' = trace m ++ events /\
    writes_outside_irq_section false events = [] /\
    irq_section false events = (tv_sec (requested_wake m) <? tv_sec real).
Proof.
  intros Hc Hrun.
  destruct (callback_cases m real later r m' Hc Hrun) as [_ Hcases].
  unfold cycle_outcome in Hcases.
  destruct Hcases as [[Hlt ->] | [(Hle & _ & ->) | (Heq & _ & Hon)]].
  - eexists. split; [reflexivity |]. split; [reflexivity |].
    symmetry. apply Z.ltb_lt. exact Hlt.
  - eexists. split; [reflexivity |]. split; [reflexivity |].
    symmetry. apply Z.ltb_ge. exact Hle.
  - destruct Hon as (p1 & th & l1 & p2 & t1 & t2 & rest & _ & _ & ->).
    eexists. split; [reflexivity |].
    destruct (on_time_events_irq real p1 th p2 t1 t2) as [Hi Hw].
    split; [exact Hw |]. rewrite Hi. symmetry. apply Z.ltb_ge. lia.
Qed.

Lemma cycle_writes_inside_irq_section_witness :
  exists m',
    hrtimer_callback (example_machine on_time_readings) = Some (HRTIMER_RESTART, m') /\
    writes_outside_irq_section false (trace m') = [] /\
    irq_section false (trace m') = false.
Proof.
  eexists. split; [vm_compute; reflexivity |].
  match goal with
  | |- writes_outside_irq_section false (trace ?result) = _ /\ _ =>
      destruct (cycle_writes_inside_irq_section
                  (example_machine on_time_readings)
                  (mk_timespec 10 999960000) (tl on_time_readings)
                  HRTIMER_RESTART result eq_refl
                  ltac:(vm_compute; reflexivity)) as (events & Ht & Hw & Hi)
  end.
  simpl app in Ht. rewrite Ht. split; [exact Hw | exact Hi].
Defined.

(** ** Calibration: sections, frame and range *)

Lemma calibration_events_irq samples :
  irq_section false (calibration_events samples) = false /\
  writes_outside_irq_section false (calibration_events samples) = [].
Proof.
  induction samples as [| s samples [IHi IHw]]; [split; reflexivity |].
  split; simpl; assumption.
Qed.

Lemma count_readings_calibration samples :
  count is_getnstimeofday (calibration_events samples) = (2 * length samples)%nat.
Proof.
  unfold count. induction samples as [| s samples IH]; [reflexivity |].
  simpl in *. rewrite IH. lia.
Qed.

Lemma calibrate_run_wrapped m samples rest :
  length samples = PPS_GEN_CALIBRATE_LOOPS ->
  clock m = readings_of samples ++ rest ->
  let stored := Long.div (Long.wrap (sum (durations_of samples))) 100 in
  pps_gen_calibrate m
  = Some (tt,
          mk_machine rest
            (trace m ++ calibration_events samples ++ [pr_info_gpio_set_takes stored])
            (gpio_pulse_width_ns m) (hrtimer_avg_latency m)
            (mk_devdata (timer (devdata m)) stored)).
Proof.
  intros Hlen Hc stored. unfold pps_gen_calibrate.
  rewrite <- Hlen at 1.
  erewrite bind_some
    by (apply calibrate_loop_run; [unfold Long.fits, Long.half; lia | exact Hc]).
  destruct m as [c t w a [kt instr]].
  unfold bind, emit, read, update, ret. unfold_machine.
  rewrite Z.add_0_l.
  replace (Z.of_nat PPS_GEN_CALIBRATE_LOOPS) with 100 by reflexivity.
  rewrite <- app_assoc. reflexivity.
Qed.

(** X5: calibration takes exactly 200 readings of the clock, makes each of
    its writes inside an interrupt section that it closes again, and changes
    nothing but [gpio_instr_time]: the timer, the average latency and the
    pulse width are as before. *)
Theorem calibration_sections_and_frame (m : machine)
    (samples : list (timespec * timespec)) (rest : list timespec) :
  length samples = 100%nat ->
  clock m = readings_of samples ++ rest ->
  exists m' events,
    pps_gen_calibrate m = Some (tt, m') /\
    trace m' = trace m ++ events /\
    count is_getnstimeofday events = 200%nat /\
    writes_outside_irq_section false events = [] /\
    irq_section false events = false /\
    timer (devdata m') = timer (devdata m) /\
    hrtimer_avg_latency m' = hrtimer_avg_latency m /\
    gpio_pulse_width_ns m' = gpio_pulse_width_ns m.
Proof.
  intros Hlen Hc.
  eexists. eexists. split; [apply (calibrate_run_wrapped m samples rest Hlen Hc) |].
  cbn [trace devdata timer hrtimer_avg_latency gpio_pulse_width_ns].
  destruct (calibration_events_irq samples) as [Hi Hw].
  split; [reflexivity |]. repeat split.
  - unfold count. rewrite filter_app, length_app.
    fold (count is_getnstimeofday (calibration_events samples)).
    rewrite count_readings_calibration, Hlen. reflexivity.
  - rewrite writes_outside_irq_section_app, Hw, Hi. reflexivity.
  - rewrite irq_section_app, Hi. reflexivity.
Qed.

Lemma calibration_sections_witness :
  exists m' events,
    pps_gen_calibrate (example_machine (readings_of calibration_samples)) = Some (tt, m') /\
    trace m' = events /\
    count is_getnstimeofday events = 200%nat /\
    timer (devdata m') = ktime_set 10 999950000.
Proof.
  destruct (calibration_sections_and_frame
              (example_machine (readings_of calibration_samples))
              calibration_samples [] eq_refl)
    as (m' & events & Hrun & Ht & Hn & _ & _ & Htimer & _).
  - vm_compute. reflexivity.
  - exists m', events. split; [exact Hrun |]. split; [exact Ht |].
    split; [exact Hn | exact Htimer].
Defined.

Lemma sum_between ds lo hi :
  Forall (fun d => lo <= d <= hi) ds ->
  Z.of_nat (length ds) * lo <= sum ds <= Z.of_nat (length ds) * hi.
Proof.
  induction 1 as [| d ds Hd _ IH]; [simpl; lia |].
  cbn [length sum fold_right]. fold (sum ds).
  rewrite Nat2Z.inj_succ. lia.
Qed.

(** X6: if every one of the 100 measured durations lies between [lo] and
    [hi] (and a hundred times these bounds fit a [long]), the calibrated
    [gpio_instr_time] lies between [lo] and [hi] too; on a clock that does
    not run backwards during a write it is therefore not negative. *)
Theorem calibration_result_within_durations (m : machine)
    (samples : list (timespec * timespec)) (rest : list timespec) (lo hi : Z) :
  length samples = 100%nat ->
  clock m = readings_of samples ++ rest ->
  Forall (fun d => lo <= d <= hi) (durations_of samples) ->
  Long.fits (100 * lo) ->
  Long.fits (100 * hi) ->
  exists m',
    pps_gen_calibrate m = Some (tt, m') /\
    lo <= gpio_instr_time (devdata m') <= hi.
Proof.
  intros Hlen Hc Hd Hlo Hhi.
  pose proof (sum_between _ lo hi Hd) as Hsum.
  assert (length (durations_of samples) = 100%nat) as Hl
      by (unfold durations_of; rewrite length_map; exact Hlen).
  rewrite Hl in Hsum. change (Z.of_nat 100) with 100 in Hsum.
  assert (Long.fits (sum (durations_of samples))) as Hfit
      by (unfold Long.fits in *; lia).
  eexists. split; [apply (calibrate_run m samples rest Hlen Hc Hfit) |].
  cbn [devdata gpio_instr_time].
  apply quot_between; lia.
Qed.

Lemma calibration_result_within_witness :
  exists m',
    pps_gen_calibrate (example_machine (readings_of calibration_samples)) = Some (tt, m') /\
    800 <= gpio_instr_time (devdata m') <= 899.
Proof.
  apply (calibration_result_within_durations
           (example_machine (readings_of calibration_samples))
           calibration_samples [] 800 899 eq_refl).
  - vm_compute. reflexivity.
  - apply Forall_forall. intros d Hin.
    unfold durations_of, calibration_samples in Hin. rewrite map_map in Hin.
    apply in_map_iff in Hin as (i & <- & Hi). apply in_seq in Hi.
    unfold elapsed_ns, NSEC_PER_SEC. simpl. lia.
  - fits_by_computation.
  - fits_by_computation.
Defined.

(** ** The write-time estimate stays in range *)

Lemma nondecreasing_app_r l1 l2 :
  nondecreasing (l1 ++ l2) -> nondecreasing l2.
Proof.
  induction l1 as [| a l1 IH]; intros H; [exact H |].
  apply IH. destruct l1 as [| b l1]; simpl in H |- *.
  - destruct l2; [exact I | apply H].
  - apply H.
Qed.

Lemma elapsed_ns_ns_of a b : elapsed_ns a b = ns_of a - ns_of b.
Proof. unfold elapsed_ns, ns_of. ring. Qed.

(** X7: on a clock that never runs backwards and whose readings lie between
    0 and a bound [B] below [2^62] nanoseconds, a cycle that finds
    [gpio_instr_time] between 0 and [B] leaves it between 0 and [B]: the
    estimate never turns negative and never overflows. *)
Theorem cycle_keeps_instr_time_in_range (m : machine) (real : timespec)
    (later : list timespec) (r : hrtimer_restart) (m' : machine) (B : Z) :
  clock m = real :: later ->
  hrtimer_callback m = Some (r, m') ->
  nondecreasing (clock m) ->
  Forall (fun ts => 0 <= ns_of ts <= B) (clock m) ->
  B < 2 ^ 62 ->
  0 <= gpio_instr_time (devdata m) <= B ->
  0 <= gpio_instr_time (devdata m') <= B.
Proof.
  intros Hc Hrun Hmono Hrange HB Hinstr.
  destruct (callback_cases m real later r m' Hc Hrun) as [_ Hcases].
  unfold cycle_outcome in Hcases.
  destruct Hcases as [[_ ->] | [(_ & _ & ->) | (_ & _ & Hon)]];
    [exact Hinstr | exact Hinstr |].
  destruct Hon as (p1 & th & l1 & p2 & t1 & t2 & rest & Hp1 & Hp2 & ->).
  cbn [done_result devdata gpio_instr_time].
  destruct Hp1 as (Hl & _ & _). destruct Hp2 as (Hl1 & _ & _).
  assert (clock m = (real :: p1 ++ th :: p2) ++ t1 :: t2 :: rest) as Hsplit.
  { rewrite Hc, Hl, Hl1. simpl. rewrite <- app_assoc. reflexivity. }
  rewrite Hsplit in Hmono, Hrange.
  apply nondecreasing_app_r in Hmono. destruct Hmono as [Hle _].
  apply Forall_app in Hrange as [_ Hrange].
  inversion Hrange as [| ? ? Ht1 Hrange']; subst.
  inversion Hrange' as [| ? ? Ht2 _]; subst.
  rewrite TIMESPEC_TO_NS_SUB. unfold Long.add. rewrite wrap_add_r.
  rewrite elapsed_ns_ns_of.
  assert (Long.fits (gpio_instr_time (devdata m) + (ns_of t2 - ns_of t1))) as Hfit.
  { unfold Long.fits, Long.half.
    assert (2 ^ 63 = 2 * 2 ^ 62) as -> by reflexivity. lia. }
  rewrite (wrap_fits _ Hfit), div_fits by (lia || exact Hfit).
  apply quot_between; lia.
Qed.

Lemma cycle_keeps_instr_time_witness :
  exists m',
    hrtimer_callback (example_machine on_time_readings) = Some (HRTIMER_RESTART, m') /\
    0 <= gpio_instr_time (devdata m') <= 11000000000.
Proof.
  eexists. split; [vm_compute; reflexivity |].
  match goal with
  | |- _ <= gpio_instr_time (devdata ?result) <= _ =>
      apply (cycle_keeps_instr_time_in_range
               (example_machine on_time_readings)
               (mk_timespec 10 999960000) (tl on_time_readings)
               HRTIMER_RESTART result 11000000000 eq_refl)
  end.
  - vm_compute. reflexivity.
  - vm_compute. repeat split; discriminate.
  - repeat constructor; vm_compute; discriminate.
  - vm_compute. reflexivity.
  - vm_compute. split; discriminate.
Defined.

(** ** The margin of the next deadline *)



(** ** The first deadline *)

(** X9: with a pulse width in range and an instruction time of at most
    [NSEC_PER_SEC - GPIO_PULSE_WIDTH_MAX_NS - 3 * SAFETY_INTERVAL_NS], the
    first deadline is in the second after the current one, at a proper
    nanosecond offset, and lies in the future, less than two seconds ahead.
    It is a full second or more ahead exactly when the current nanosecond
    offset is not past the deadline's offset. *)
Theorem first_timer_event_within_two_seconds (m : machine) (now : timespec)
    (rest : list timespec) :
  clock m = now :: rest ->
  0 <= tv_nsec now < NSEC_PER_SEC ->
  0 <= gpio_pulse_width_ns m <= GPIO_PULSE_WIDTH_MAX_NS ->
  0 <= gpio_instr_time (devdata m)
    <= NSEC_PER_SEC - GPIO_PULSE_WIDTH_MAX_NS - 3 * SAFETY_INTERVAL_NS ->
  Long.fits (tv_sec now + 1) ->
  exists kt m',
    pps_gen_first_timer_event m = Some (kt, m') /\
    clock m' = rest /\
    kt_sec kt = tv_sec now + 1 /\
    0 <= kt_nsec kt < NSEC_PER_SEC /\
    0 < elapsed_ns (mk_timespec (kt_sec kt) (kt_nsec kt)) now < 2 * NSEC_PER_SEC /\
    (NSEC_PER_SEC <= elapsed_ns (mk_timespec (kt_sec kt) (kt_nsec kt)) now
     <-> tv_nsec now <= kt_nsec kt).
Proof.
  intros Hc Hnow Hw Hi Hsec.
  destruct m as [c t w a [kt instr]]. cbn [clock gpio_pulse_width_ns devdata gpio_instr_time] in *.
  subst c.
  unfold pps_gen_first_timer_event, bind, read, ret, GETNSTIMEOFDAY.
  cbn [clock]. unfold_machine.
  eexists. eexists. split; [reflexivity |]. split; [reflexivity |].
  cbn [kt_sec kt_nsec]. unfold Long.add, Long.sub, Long.mul.
  rewrite (wrap_fits _ Hsec).
  rewrite (wrap_fits (3 * SAFETY_INTERVAL_NS)) by fits_by_computation.
  rewrite wrap_sub_chain.
  unfold GPIO_PULSE_WIDTH_MAX_NS, SAFETY_INTERVAL_NS, NSEC_PER_USEC, NSEC_PER_SEC in *.
  rewrite wrap_fits by (unfold Long.fits, Long.half; lia).
  unfold elapsed_ns, NSEC_PER_SEC. cbn [tv_sec tv_nsec]. repeat split; lia.
Qed.

Lemma first_timer_event_witness :
  exists kt m',
    pps_gen_first_timer_event (example_machine [mk_timespec 5 999990000])
    = Some (kt, m') /\
    kt_sec kt = 6 /\
    elapsed_ns (mk_timespec (kt_sec kt) (kt_nsec kt)) (mk_timespec 5 999990000)
    < NSEC_PER_SEC.
Proof.
  destruct (first_timer_event_within_two_seconds
              (example_machine [mk_timespec 5 999990000])
              (mk_timespec 5 999990000) [] eq_refl)
    as (kt & m' & Hrun & _ & Hsec & _ & _ & _).
  - vm_compute. split; [discriminate | reflexivity].
  - vm_compute. split; discriminate.
  - vm_compute. split; discriminate.
  - fits_by_computation.
  - exists kt, m'. split; [exact Hrun |]. split; [exact Hsec |].
    vm_compute in Hrun. injection Hrun as <- _. vm_compute. reflexivity.
Defined.

(** ** A second that changes during the first busy loop *)

(** X10: when the first busy loop of an on-time cycle is ended by a reading
    outside the requested second and the next reading is outside it too, the
    pulse is still written: HIGH, one reading of the clock, LOW, with no
    missed-cycle report. *)
Theorem pulse_written_after_second_change (m : machine) (real : timespec)
    (polled1 : list timespec) (a b ts2 : timespec) (rest : list timespec) :
  let req := requested_wake m in
  clock m = real :: polled1 ++ a :: b :: ts2 :: rest ->
  tv_sec real = tv_sec req ->
  tv_nsec real <= time_gpio_assert_ns m ->
  forallb (keep_polling req (time_gpio_assert_ns m)) polled1 = true ->
  tv_sec a <> tv_sec req ->
  tv_sec b <> tv_sec req ->
  exists m',
    hrtimer_callback m = Some (HRTIMER_RESTART, m') /\
    clock m' = rest /\
    trace m' = trace m
               ++ [local_irq_save; getnstimeofday real; pr_info_gpio_event]
               ++ map getnstimeofday polled1
               ++ [getnstimeofday a; gpiod_set_value PPS_GPIO_HIGH;
                   getnstimeofday b; gpiod_set_value PPS_GPIO_LOW;
                   getnstimeofday ts2; local_irq_restore] /\
    late_reports (trace m') = late_reports (trace m).
Proof.
  intros req Hc Hs Hn Hp Ha Hb.
  eexists. split.
  - apply (callback_on_time m real (polled1 ++ a :: b :: ts2 :: rest)
             polled1 a (b :: ts2 :: rest) [] b ts2 rest Hc Hs Hn).
    + repeat split; [exact Hp |]. apply keep_polling_other_second, Ha.
    + repeat split. apply keep_polling_other_second, Hb.
  - cbn [clock trace]. split; [reflexivity |]. split.
    + rewrite map_app. cbn [map app]. rewrite <- !app_assoc. reflexivity.
    + repeat (rewrite ?late_reports_app, ?late_reports_readings; simpl).
      apply app_nil_r.
Qed.

Lemma pulse_written_after_second_change_witness :
  exists m',
    hrtimer_callback
      (example_machine [mk_timespec 10 999960000; mk_timespec 10 999965000;
                        mk_timespec 11 100; mk_timespec 11 900; mk_timespec 11 1700])
    = Some (HRTIMER_RESTART, m') /\
    gpio_writes (trace m') = [PPS_GPIO_HIGH; PPS_GPIO_LOW].
Proof.
  destruct (pulse_written_after_second_change
              (example_machine [mk_timespec 10 999960000; mk_timespec 10 999965000;
                                mk_timespec 11 100; mk_timespec 11 900;
                                mk_timespec 11 1700])
              (mk_timespec 10 999960000) [mk_timespec 10 999965000]
              (mk_timespec 11 100) (mk_timespec 11 900) (mk_timespec 11 1700) []
              eq_refl)
    as (m' & Hrun & _ & Ht & _).
  - reflexivity.
  - vm_compute. discriminate.
  - vm_compute. reflexivity.
  - vm_compute. discriminate.
  - vm_compute. discriminate.
  - exists m'. split; [exact Hrun |]. rewrite Ht. reflexivity.
Defined.

(** ** Failing start-up *)

(** X11: when a step of [probe] fails (with a negative error code where the
    platform supplies one), [probe] returns the error of the first failing
    step, a negative value, without reading the clock, writing to the
    output line or starting the timer.  It frees the device data exactly
    when it had allocated it, and puts the output line back exactly when it
    had acquired it. *)
Theorem probe_failure_unwinds (pdev : platform_device) (m : machine) :
  probe_step_fails pdev ->
  (forall err, devm_gpiod_get_result pdev = gpiod_err err -> err < 0) ->
  exists m' events,
    pps_gen_gpio_probe pdev m = Some (probe_error pdev, m') /\
    probe_error pdev < 0 /\
    trace m' = trace m ++ events /\
    clock m' = clock m /\
    gpio_writes events = [] /\
    count is_hrtimer_start events = 0%nat /\
    count is_devm_kfree events = (if devm_kzalloc_ok pdev then 1%nat else 0%nat) /\
    count is_devm_gpiod_put events
    = (if devm_kzalloc_ok pdev && (of_gpio_named_count pdev =? 1)
       then match devm_gpiod_get_result pdev with
            | gpiod_ok => 1%nat
            | gpiod_err _ => 0%nat
            end
       else 0%nat).
Proof.
  intros Hfail Herr.
  destruct pdev as [k n g d]. destruct m as [c t w a dd].
  unfold probe_step_fails, probe_error in *.
  cbn [devm_kzalloc_ok of_gpio_named_count devm_gpiod_get_result
       gpiod_direction_output_ret] in *.
  unfold pps_gen_gpio_probe.
  cbn [devm_kzalloc_ok of_gpio_named_count devm_gpiod_get_result
       gpiod_direction_output_ret].
  destruct k; cbn [negb andb].
  2: { eexists. eexists. split; [reflexivity |]. unfold_machine.
       split; [reflexivity |].
       split; [rewrite <- !app_assoc; reflexivity |]. repeat split; reflexivity. }
  destruct (n =? 1) eqn:Hn; cbn [negb].
  2: { eexists. eexists. split; [reflexivity |]. unfold_machine.
       split; [reflexivity |].
       split; [rewrite <- !app_assoc; reflexivity |]. repeat split; reflexivity. }
  destruct g as [| err].
  2: { specialize (Herr err eq_refl).
       eexists. eexists. split; [reflexivity |]. unfold_machine.
       split; [exact Herr |].
       split; [rewrite <- !app_assoc; reflexivity |]. repeat split; reflexivity. }
  assert (d < 0) as Hd.
  { apply Z.eqb_eq in Hn.
    destruct Hfail as [H | [H | [[err H] | H]]];
      [discriminate | contradiction | discriminate | exact H]. }
  unfold bind at 1, emit at 1, update at 1.
  unfold bind at 1, emit at 1, update at 1.
  unfold bind at 1, update at 1.
  unfold bind at 1, emit at 1, update at 1.
  unfold bind at 1, emit at 1, update at 1.
  unfold bind at 1, emit at 1, update at 1.
  replace (d <? 0) with true by (symmetry; apply Z.ltb_lt; exact Hd).
  eexists. eexists. split; [reflexivity |]. unfold_machine.
  split; [exact Hd |].
  split; [rewrite <- !app_assoc; reflexivity |]. repeat split; reflexivity.
Qed.

Lemma probe_failure_witness :
  exists m',
    pps_gen_gpio_probe (mk_platform_device true 1 gpiod_ok (- EINVAL))
      (example_machine [])
    = Some (- EINVAL, m') /\
    trace m' = [pr_info_probe; devm_kzalloc; devm_gpiod_get_out_low;
                platform_set_drvdata; gpiod_direction_output PPS_GPIO_HIGH;
                dev_err_gpio_dir; devm_gpiod_put; devm_kfree].
Proof.
  destruct (probe_failure_unwinds
              (mk_platform_device true 1 gpiod_ok (- EINVAL)) (example_machine []))
    as (m' & events & Hrun & _).
  - right. right. right. vm_compute. reflexivity.
  - intros err H. discriminate H.
  - exists m'. split; [exact Hrun |].
    vm_compute in Hrun. injection Hrun as <-. reflexivity.
Defined.
